(** * A WhatsApp / DeepSeek webhook relay (app.py): model and properties

    The program is one Flask module: a webhook view ([webhook]), two HTTP
    clients ([send_whatsapp_message], [get_deepseek_reply]) and a start-up
    check ([check_configuration]).  The embedding below follows app.py
    function by function.  Python values are the JSON values the code
    handles, Python exceptions are an explicit [Raise] result, and the
    outside world (the logger and [requests.post]) is a trace of events
    driven by an oracle for the answers of the network. *)

From stdpp Require Import gmap strings list fin_maps.
From Stdlib Require Import ZArith.

Set Warnings "-register-all".
Local Open Scope string_scope.
Local Open Scope list_scope.
Local Open Scope Z_scope.

(** ** Python values *)

(** A Python float, kept as the decimal literal that denotes it
    ([FDec m e] is [m * 10^e]); the code only builds the constant 0.7 and
    tests floats for truth. *)
Inductive pyfloat :=
| FDec (m e : Z)
| FInf (negative : bool)
| FNan.

(** What [json.loads] produces, which is also what [requests] serialises. *)
Inductive value :=
| VNone
| VBool (b : bool)
| VInt (z : Z)
| VFloat (f : pyfloat)
| VStr (s : string)
| VList (l : list value)
| VDict (d : gmap string value).

(** The exceptions that the modelled operations raise; all of them are
    subclasses of Python's [Exception]. *)
Inductive exn :=
| AttributeError
| KeyError
| IndexError
| TypeError
| BadRequest
| UnsupportedMediaType
| JSONDecodeError
| RequestException (msg : string).

Inductive result (A : Type) :=
| Ok (a : A)
| Raise (e : exn).
Arguments Ok {A} a.
Arguments Raise {A} e.

(** [bool(v)]: the truth value used by [if v:] and [not v]. *)
Definition truthy (v : value) : bool :=
  match v with
  | VNone => false
  | VBool b => b
  | VInt z => negb (z =? 0)
  | VFloat (FDec m _) => negb (m =? 0)
  | VFloat _ => true
  | VStr s => negb (String.eqb s "")
  | VList l => match l with [] => false | _ :: _ => true end
  | VDict d => negb (bool_decide (d = ∅))
  end.

(** [bool(x)] for [x = os.getenv(...)], which is [None] or a string. *)
Definition env_truthy (x : option string) : bool :=
  match x with
  | None => false
  | Some s => negb (String.eqb s "")
  end.

(** [v == "literal"]: only an equal [str] compares equal to a [str]. *)
Definition eq_str (v : value) (s : string) : bool :=
  match v with
  | VStr s' => String.eqb s' s
  | _ => false
  end.

(** [v.get(k, default)]: a [dict] method; every other JSON value lacks
    the attribute. *)
Definition py_get (v : value) (k : string) (dflt : value) : result value :=
  match v with
  | VDict d => Ok (default dflt (d !! k))
  | _ => Raise AttributeError
  end.

(** The position that index [i] denotes in a sequence of length [n]
    (negative indices count from the end). *)
Definition seq_index (n : nat) (i : Z) : option nat :=
  if (0 <=? i) && (i <? Z.of_nat n) then Some (Z.to_nat i)
  else if (i <? 0) && (0 <=? Z.of_nat n + i) then Some (Z.to_nat (Z.of_nat n + i))
  else None.

(** [v[i]] for an integer [i].  The keys of a JSON object are strings, so
    an integer is never among them; a string is indexed by its characters
    and gives a string of length one. *)
Definition getitem_int (v : value) (i : Z) : result value :=
  match v with
  | VList l =>
      match seq_index (length l) i with
      | Some n => match l !! n with Some x => Ok x | None => Raise IndexError end
      | None => Raise IndexError
      end
  | VStr s =>
      match seq_index (String.length s) i with
      | Some n =>
          match String.get n s with
          | Some c => Ok (VStr (String c EmptyString))
          | None => Raise IndexError
          end
      | None => Raise IndexError
      end
  | VDict _ => Raise KeyError
  | _ => Raise TypeError
  end.

(** [v[k]] for a string [k]. *)
Definition getitem_str (v : value) (k : string) : result value :=
  match v with
  | VDict d => match d !! k with Some x => Ok x | None => Raise KeyError end
  | _ => Raise TypeError
  end.

(** [str(x)] inside an f-string, for the result of [os.getenv]. *)
Definition fstr (x : option string) : string :=
  match x with
  | Some s => s
  | None => "None"
  end.

(** ** The outside world *)

Inductive level := INFO | ERROR.

Inductive logarg :=
| LVal (v : value)
| LExn (e : exn).

Record http_request := HttpRequest {
  url : string;
  headers : gmap string string;
  json_payload : value;
}.

(** A [requests.Response]: [json] is the outcome of [response.json()],
    which raises when the body is not JSON. *)
Record Response := mkResponse {
  status_code : Z;
  text : string;
  json : result value;
}.

(** What the program does to the world, in order.  A log record keeps the
    f-string as written and the values formatted into it.  [CallReply] and
    [CallSend] mark the entry into [get_deepseek_reply] and
    [send_whatsapp_message]. *)
Inductive event :=
| Log (lvl : level) (template : string) (args : list logarg)
| Post (rq : http_request)
| CallReply (user_message : value)
| CallSend (to message : value).

(** The answer of the network to a POST, given everything that happened
    before it: [inl e] when [requests.post] raises, [inr r] when it
    returns a response. *)
Definition network : Type := list event → http_request → exn + Response.

(** A computation reads the history and returns its result with the
    events it added. *)
Definition M (A : Type) : Type := list event → result A * list event.

Definition ret {A} (a : A) : M A := λ _, (Ok a, []).

Definition bind {A B} (m : M A) (k : A → M B) : M B :=
  λ h,
    match m h with
    | (Ok a, t) => let '(r, t') := k a (h ++ t) in (r, t ++ t')
    | (Raise e, t) => (Raise e, t)
    end.

(** [try: body except Exception as e: handler(e)]. *)
Definition try_except {A} (body : M A) (handler : exn → M A) : M A :=
  λ h,
    match body h with
    | (Ok a, t) => (Ok a, t)
    | (Raise e, t) => let '(r, t') := handler e (h ++ t) in (r, t ++ t')
    end.

Definition lift {A} (r : result A) : M A := λ _, (r, []).

Definition emit (e : event) : M unit := λ _, (Ok tt, [e]).

Notation "x <- m ;; k" := (bind m (λ x, k))
  (at level 100, m at next level, right associativity).
Notation "m ;;; k" := (bind m (λ _, k))
  (at level 100, right associativity).

Definition logger_info (template : string) (args : list logarg) : M unit :=
  emit (Log INFO template args).

Definition logger_error (template : string) (args : list logarg) : M unit :=
  emit (Log ERROR template args).

Definition is_post (e : event) : bool :=
  match e with Post _ => true | _ => false end.

Definition is_call (e : event) : bool :=
  match e with CallReply _ | CallSend _ _ => true | _ => false end.

(** The POSTs of a trace, and the function entries of a trace. *)
Definition posts (t : list event) : list event := List.filter is_post t.
Definition calls (t : list event) : list event := List.filter is_call t.

(** ** The program *)

Section App.

(** [os.environ] after [load_dotenv()], and the network. *)
Variable environ : gmap string string.
Variable net : network.

Definition requests_post (u : string) (hd : gmap string string) (js : value)
  : M Response :=
  λ h,
    let rq := HttpRequest u hd js in
    match net h rq with
    | inl e => (Raise e, [Post rq])
    | inr r => (Ok r, [Post rq])
    end.

(** Module-level configuration (lines 20-23). *)
Definition WHATSAPP_TOKEN : option string := environ !! "WHATSAPP_TOKEN".
Definition WHATSAPP_PHONE_ID : option string := environ !! "WHATSAPP_PHONE_ID".
Definition DEEPSEEK_API_KEY : option string := environ !! "DEEPSEEK_API_KEY".
Definition VERIFY_TOKEN : string :=
  default "deepseek-bot" (environ !! "VERIFY_TOKEN").

Definition send_url : string :=
  "https://graph.facebook.com/v20.0/" +:+ fstr WHATSAPP_PHONE_ID +:+ "/messages".

Definition send_headers : gmap string string :=
  {[ "Authorization" := "Bearer " +:+ fstr WHATSAPP_TOKEN;
     "Content-Type" := "application/json" ]}.

Definition send_payload (to message : value) : value :=
  VDict {[ "messaging_product" := VStr "whatsapp";
           "to" := to;
           "type" := VStr "text";
           "text" := VDict {[ "body" := message ]} ]}.

(** Lines 25-53. *)
Definition send_whatsapp_message (to message : value) : M bool :=
  emit (CallSend to message) ;;;
  if negb (env_truthy WHATSAPP_TOKEN) || negb (env_truthy WHATSAPP_PHONE_ID) then
    logger_error "WhatsApp credentials not configured!" [] ;;;
    ret false
  else
    try_except
      (response <- requests_post send_url send_headers (send_payload to message) ;;
       if status_code response =? 200 then
         logger_info "Message sent successfully to {to}" [LVal to] ;;;
         ret true
       else
         logger_error "Failed to send message: {response.status_code} - {response.text}"
           [LVal (VInt (status_code response)); LVal (VStr (text response))] ;;;
         ret false)
      (λ e,
         logger_error "Error sending message: {e}" [LExn e] ;;;
         ret false).

Definition send_request (to message : value) : http_request :=
  HttpRequest send_url send_headers (send_payload to message).

Definition deepseek_url : string := "https://api.deepseek.com/v1/chat/completions".

Definition deepseek_headers : gmap string string :=
  {[ "Authorization" := "Bearer " +:+ fstr DEEPSEEK_API_KEY;
     "Content-Type" := "application/json" ]}.

Definition deepseek_payload (user_message : value) : value :=
  VDict {[ "model" := VStr "deepseek-chat";
           "messages" := VList [VDict {[ "role" := VStr "user";
                                         "content" := user_message ]}];
           "temperature" := VFloat (FDec 7 (-1));
           "max_tokens" := VInt 1000 ]}.

(** [j["choices"][0]["message"]["content"]] (line 75). *)
Definition first_choice_content (j : value) : result value :=
  match getitem_str j "choices" with
  | Ok cs =>
      match getitem_int cs 0 with
      | Ok c =>
          match getitem_str c "message" with
          | Ok m => getitem_str m "content"
          | Raise e => Raise e
          end
      | Raise e => Raise e
      end
  | Raise e => Raise e
  end.

Definition deepseek_request (user_message : value) : http_request :=
  HttpRequest deepseek_url deepseek_headers (deepseek_payload user_message).

Definition not_configured : string := "DeepSeek API key not configured!".
Definition sorry_trouble : string :=
  "Sorry, I'm having trouble processing your request right now.".
Definition sorry_error : string :=
  "Sorry, I encountered an error while processing your message.".

(** Lines 55-81. *)
Definition get_deepseek_reply (user_message : value) : M value :=
  emit (CallReply user_message) ;;;
  if negb (env_truthy DEEPSEEK_API_KEY) then
    ret (VStr not_configured)
  else
    try_except
      (response <- requests_post deepseek_url deepseek_headers
                     (deepseek_payload user_message) ;;
       if status_code response =? 200 then
         j <- lift (json response) ;;
         lift (first_choice_content j)
       else
         logger_error "DeepSeek API error: {response.status_code} - {response.text}"
           [LVal (VInt (status_code response)); LVal (VStr (text response))] ;;;
         ret (VStr sorry_trouble))
      (λ e,
         logger_error "Error calling DeepSeek: {e}" [LExn e] ;;;
         ret (VStr sorry_error)).

(** The part of a Flask request that the view reads: [args] are the
    query parameters, [get_json] is the outcome of
    [request.get_json()], which raises (a 400 or 415 answer made by the
    framework) when the body cannot be parsed as JSON. *)
Record Request := mkRequest {
  method : string;
  args : gmap string string;
  get_json : result value;
}.

(** [request.args.get(k)]. *)
Definition args_get (request : Request) (k : string) : value :=
  match args request !! k with
  | Some s => VStr s
  | None => VNone
  end.

(** Lines 114-129: what the view does with the first message. *)
Definition handle_message (message : value) : M unit :=
  from_number <- lift (py_get message "from" VNone) ;;
  message_type <- lift (py_get message "type" VNone) ;;
  if eq_str message_type "text" then
    text_obj <- lift (py_get message "text" (VDict ∅)) ;;
    user_text <- lift (py_get text_obj "body" (VStr "")) ;;
    logger_info "Received message from {from_number}: {user_text}"
      [LVal from_number; LVal user_text] ;;;
    ai_response <- get_deepseek_reply user_text ;;
    logger_info "AI response: {ai_response}" [LVal ai_response] ;;;
    _ <- send_whatsapp_message from_number ai_response ;;
    ret tt
  else
    logger_info "Received non-text message type: {message_type}"
      [LVal message_type].

(** Lines 105-129: the body of the [try] of the POST branch. *)
Definition process_webhook (data : value) : M unit :=
  entry <- lift (py_get data "entry" (VList [])) ;;
  if truthy entry then
    entry0 <- lift (getitem_int entry 0) ;;
    changes <- lift (py_get entry0 "changes" (VList [])) ;;
    if truthy changes then
      changes0 <- lift (getitem_int changes 0) ;;
      value <- lift (py_get changes0 "value" (VDict ∅)) ;;
      messages <- lift (py_get value "messages" (VList [])) ;;
      if truthy messages then
        message <- lift (getitem_int messages 0) ;;
        handle_message message
      else ret tt
    else ret tt
  else ret tt.

(** Lines 83-134.  The view returns a pair (body, status); it returns
    nothing ([None]) for a method that is neither GET nor POST. *)
Definition webhook (request : Request) : M (option (value * Z)) :=
  if String.eqb (method request) "GET" then
    let mode := args_get request "hub.mode" in
    let token := args_get request "hub.verify_token" in
    let challenge := args_get request "hub.challenge" in
    logger_info "Webhook verification: mode={mode}, token={token}"
      [LVal mode; LVal token] ;;;
    if eq_str mode "subscribe" && eq_str token VERIFY_TOKEN then
      logger_info "Webhook verified successfully!" [] ;;;
      ret (Some (challenge, 200))
    else
      logger_error "Webhook verification failed!" [] ;;;
      ret (Some (VStr "Verification failed", 403))
  else if String.eqb (method request) "POST" then
    data <- lift (get_json request) ;;
    logger_info "Received webhook data: {data}" [LVal data] ;;;
    try_except
      (process_webhook data)
      (λ e, logger_error "Error processing webhook: {e}" [LExn e]) ;;;
    ret (Some (VStr "OK", 200))
  else ret None.

(** Lines 150-167. *)
Definition missing_vars : list string :=
  let missing := [] in
  let missing :=
    if negb (env_truthy WHATSAPP_TOKEN) then missing ++ ["WHATSAPP_TOKEN"]
    else missing in
  let missing :=
    if negb (env_truthy WHATSAPP_PHONE_ID) then missing ++ ["WHATSAPP_PHONE_ID"]
    else missing in
  let missing :=
    if negb (env_truthy DEEPSEEK_API_KEY) then missing ++ ["DEEPSEEK_API_KEY"]
    else missing in
  missing.

Definition check_configuration : M bool :=
  match missing_vars with
  | _ :: _ =>
      logger_error "Missing required environment variables: {', '.join(missing_vars)}"
        [LVal (VStr (String.concat ", " missing_vars))] ;;;
      logger_error "Please configure your .env file with the required credentials." [] ;;;
      ret false
  | [] =>
      logger_info "All required environment variables are configured!" [] ;;;
      ret true
  end.

End App.

Arguments mkRequest method args get_json : assert.

(** ** Shapes of the JSON inputs *)

(** The completion body [j] carries [c] at choices[0].message.content. *)
Definition content_at (j c : value) : Prop :=
  ∃ (d ch m : gmap string value) (rest : list value),
    j = VDict d ∧ d !! "choices" = Some (VList (VDict ch :: rest)) ∧
    ch !! "message" = Some (VDict m) ∧ m !! "content" = Some c.

(** The delivery [data] carries [m] at
    entry[0].changes[0].value.messages[0]. *)
Definition message_at (data m : value) : Prop :=
  ∃ (d e c v : gmap string value) (er cr mr : list value),
    data = VDict d ∧ d !! "entry" = Some (VList (VDict e :: er)) ∧
    e !! "changes" = Some (VList (VDict c :: cr)) ∧
    c !! "value" = Some (VDict v) ∧
    v !! "messages" = Some (VList (m :: mr)).

(** ** Running the program on concrete inputs *)

Module Examples.

Definition env_full : gmap string string :=
  {[ "WHATSAPP_TOKEN" := "wa-token";
     "WHATSAPP_PHONE_ID" := "4242";
     "DEEPSEEK_API_KEY" := "ds-key" ]}.

(** A delivery with one message at entry[0].changes[0].value.messages[0]. *)
Definition delivery (message : value) : value :=
  VDict {[ "object" := VStr "whatsapp_business_account";
           "entry" := VList [VDict {[ "id" := VStr "1";
             "changes" := VList [VDict {[ "field" := VStr "messages";
               "value" := VDict {[ "messages" := VList [message] ]} ]}] ]}] ]}.

Definition hello : value :=
  VDict {[ "from" := VStr "1555000111";
           "type" := VStr "text";
           "text" := VDict {[ "body" := VStr "Hello" ]} ]}.

Definition completion (content : value) : value :=
  VDict {[ "choices" := VList [VDict {[ "index" := VInt 0;
             "message" := VDict {[ "role" := VStr "assistant";
                                   "content" := content ]} ]}] ]}.

Definition ok_response (j : value) : Response := mkResponse 200 "" (Ok j).

(** A network where the completion endpoint answers 200 with [content]
    and every other endpoint answers 200 with an empty object. *)
Definition net_reply (content : value) : network :=
  λ _ rq,
    if String.eqb (url rq) deepseek_url then inr (ok_response (completion content))
    else inr (ok_response (VDict ∅)).

(** A network that answers every POST with status [code]. *)
Definition net_status (code : Z) : network :=
  λ _ _, inr (mkResponse code "upstream error" (Raise JSONDecodeError)).

(** A network where every POST fails in transport. *)
Definition net_down : network :=
  λ _ _, inl (RequestException "connection refused").

Definition post_request (body : result value) : Request :=
  mkRequest "POST" ∅ body.

Definition image : value :=
  VDict {[ "from" := VStr "1555000111";
           "type" := VStr "image";
           "image" := VDict {[ "id" := VStr "77" ]} ]}.

(** A text message without its "text" object. *)
Definition text_without_body : value :=
  VDict {[ "from" := VStr "1555000111"; "type" := VStr "text" ]}.

(** A delivery of a status update: no "messages" in the value. *)
Definition status_update : value :=
  VDict {[ "entry" := VList [VDict {[ "changes" := VList [VDict {[
             "value" := VDict {[ "statuses" := VList [] ]} ]}] ]}] ]}.

(** The query of the subscription handshake. *)
Definition verify_query (token : string) : gmap string string :=
  {[ "hub.mode" := "subscribe";
     "hub.verify_token" := token;
     "hub.challenge" := "1158201444" ]}.

(** All three variables set, WHATSAPP_TOKEN to the empty string. *)
Definition env_empty_token : gmap string string :=
  <["WHATSAPP_TOKEN" := ""]> env_full.

End Examples.


(** ** Observations on traces, and the start-up script *)

Definition is_error (e : event) : bool :=
  match e with Log ERROR _ _ => true | _ => false end.

(** The ERROR records of a trace. *)
Definition errors (t : list event) : list event := List.filter is_error t.

(** The exceptions that [.get] and [[0]] raise on JSON values when the
    value has the wrong type or is a [dict]. *)
Definition lookup_error (e : exn) : Prop :=
  e = AttributeError ∨ e = KeyError ∨ e = TypeError.

(** What the script of lines 169-182 writes: lines on standard output and
    log records. *)
Inductive output :=
| Printed (line : string)
| Logged (e : event).

(** How the script ends: in [app.run], which serves until the process is
    killed, in [exit(code)], or in an exception nobody catches. *)
Inductive ending :=
| Serving (host : string) (port : Z) (debug : bool)
| Exited (code : Z)
| Uncaught (e : exn).

(** Lines 169-182, the body of [if __name__ == "__main__"]. *)
Definition main (environ : gmap string string) : list output * ending :=
  let banner := [Printed "DeepSeek WhatsApp Bot Starting..."] in
  let '(ok, t) := check_configuration environ [] in
  let out := banner ++ map Logged t in
  match ok with
  | Raise e => (out, Uncaught e)
  | Ok b =>
      if negb b then
        (out ++ [Printed "❌ Configuration incomplete. Please check your .env file."],
         Exited 1)
      else
        (out ++ [Printed "✅ Configuration verified!";
                 Printed "🌐 Starting Flask server on http://localhost:5000";
                 Printed "📱 Webhook endpoint: http://localhost:5000/webhook";
                 Printed "🔗 Use ngrok to expose this server: ngrok http 5000";
                 Printed "🤖 Bot is ready!"],
         Serving "0.0.0.0" 5000 true)
  end.

Module MoreExamples.

(** A text message whose "text" is [null]. *)
Definition text_null : value :=
  VDict {[ "from" := VStr "1555000111"; "type" := VStr "text"; "text" := VNone ]}.

(** The handshake as a request. *)
Definition get_request (qs : gmap string string) : Request :=
  mkRequest "GET" qs (Raise UnsupportedMediaType).

(** The WhatsApp credentials without the completion key. *)
Definition env_without_key : gmap string string :=
  {[ "WHATSAPP_TOKEN" := "wa-token"; "WHATSAPP_PHONE_ID" := "4242" ]}.

End MoreExamples.

(** ** Symbolic runs of the two clients *)

Section Runs.

Variable environ : gmap string string.
Variable net : network.

(** Every path through [send_whatsapp_message]. *)
Lemma send_whatsapp_message_run (to message : value) (h : list event) :
  send_whatsapp_message environ net to message h =
    let rq := send_request environ to message in
    if env_truthy (WHATSAPP_TOKEN environ) && env_truthy (WHATSAPP_PHONE_ID environ) then
      match net (h ++ [CallSend to message]) rq with
      | inr resp =>
          if status_code resp =? 200 then
            (Ok true,
             [CallSend to message; Post rq;
              Log INFO "Message sent successfully to {to}" [LVal to]])
          else
            (Ok false,
             [CallSend to message; Post rq;
              Log ERROR "Failed to send message: {response.status_code} - {response.text}"
                [LVal (VInt (status_code resp)); LVal (VStr (text resp))]])
      | inl e =>
          (Ok false,
           [CallSend to message; Post rq;
            Log ERROR "Error sending message: {e}" [LExn e]])
      end
    else
      (Ok false,
       [CallSend to message; Log ERROR "WhatsApp credentials not configured!" []]).
Proof.
  unfold send_whatsapp_message, send_request, bind, try_except, emit, requests_post,
    logger_error, logger_info, ret.
  destruct (env_truthy (WHATSAPP_TOKEN environ)),
           (env_truthy (WHATSAPP_PHONE_ID environ)); cbn [negb orb andb]; try reflexivity.
  destruct (net _ _) as [e | resp]; [reflexivity |].
  destruct (status_code resp =? 200); reflexivity.
Qed.

(** Every path through [get_deepseek_reply]. *)
Lemma get_deepseek_reply_run (user_message : value) (h : list event) :
  get_deepseek_reply environ net user_message h =
    let rq := deepseek_request environ user_message in
    let failed e :=
      (Ok (VStr sorry_error),
       [CallReply user_message; Post rq;
        Log ERROR "Error calling DeepSeek: {e}" [LExn e]]) in
    if env_truthy (DEEPSEEK_API_KEY environ) then
      match net (h ++ [CallReply user_message]) rq with
      | inr resp =>
          if status_code resp =? 200 then
            match json resp with
            | Ok j =>
                match first_choice_content j with
                | Ok c => (Ok c, [CallReply user_message; Post rq])
                | Raise e => failed e
                end
            | Raise e => failed e
            end
          else
            (Ok (VStr sorry_trouble),
             [CallReply user_message; Post rq;
              Log ERROR "DeepSeek API error: {response.status_code} - {response.text}"
                [LVal (VInt (status_code resp)); LVal (VStr (text resp))]])
      | inl e => failed e
      end
    else (Ok (VStr not_configured), [CallReply user_message]).
Proof.
  unfold get_deepseek_reply, deepseek_request, bind, try_except, emit, requests_post,
    logger_error, lift, ret.
  destruct (env_truthy (DEEPSEEK_API_KEY environ)); cbn [negb]; [| reflexivity].
  destruct (net _ _) as [e | resp]; [reflexivity |].
  destruct (status_code resp =? 200); [| reflexivity].
  destruct (json resp) as [j | e]; [| reflexivity].
  destruct (first_choice_content j); reflexivity.
Qed.

End Runs.

(** ** Indexing and the fixed paths *)

Lemma getitem_int_0_list (l : list value) :
  getitem_int (VList l) 0 =
    match l with
    | [] => Raise IndexError
    | x :: _ => Ok x
    end.
Proof. destruct l; reflexivity. Qed.

Lemma getitem_int_0_str (s : string) :
  getitem_int (VStr s) 0 =
    match s with
    | EmptyString => Raise IndexError
    | String c _ => Ok (VStr (String c EmptyString))
    end.
Proof. destruct s; reflexivity. Qed.

(** Only a [dict] answers [.get]. *)
Lemma py_get_Ok (v : value) (k : string) (dflt x : value) :
  py_get v k dflt = Ok x →
  ∃ d, v = VDict d ∧ x = default dflt (d !! k).
Proof. destruct v; cbn; intros H; try discriminate. injection H as <-. eauto. Qed.

(** [v[0]] followed by [.get] succeeds only on a list that starts with a
    [dict]: the first character of a string is a string, and a [dict] has
    no key 0. *)
Lemma getitem_0_then_get (v x y : value) (k : string) (dflt : value) :
  getitem_int v 0 = Ok x → py_get x k dflt = Ok y →
  ∃ d rest, v = VList (VDict d :: rest) ∧ x = VDict d.
Proof.
  intros Hx Hy. apply py_get_Ok in Hy as (d & -> & _).
  destruct v as [| | | | s | l |]; try discriminate.
  - rewrite getitem_int_0_str in Hx. destruct s; discriminate.
  - rewrite getitem_int_0_list in Hx. destruct l as [| x0 rest]; [discriminate |].
    injection Hx as ->. eauto.
Qed.

(** [first_choice_content] returns exactly when the body has the shape
    {"choices": [{"message": {"content": c}}, ...]}. *)
Lemma first_choice_content_Ok (j c : value) :
  first_choice_content j = Ok c ↔ content_at j c.
Proof.
  unfold content_at. split.
  - unfold first_choice_content. intros H.
    destruct j as [| | | | | | d]; try discriminate. cbn in H.
    destruct (d !! "choices") as [cs |] eqn:Hcs; [| discriminate].
    destruct cs as [| | | | s | l | d']; try discriminate.
    + rewrite getitem_int_0_str in H. destruct s; discriminate.
    + rewrite getitem_int_0_list in H. destruct l as [| x rest]; [discriminate |].
      destruct x as [| | | | | | ch]; try discriminate. cbn in H.
      destruct (ch !! "message") as [mv |] eqn:Hm; [| discriminate].
      destruct mv as [| | | | | | m]; try discriminate. cbn in H.
      destruct (m !! "content") as [c' |] eqn:Hc; [| discriminate].
      injection H as <-. exists d, ch, m, rest. auto.
  - intros (d & ch & m & rest & -> & Hcs & Hm & Hc).
    unfold first_choice_content. cbn. rewrite Hcs, getitem_int_0_list. cbn.
    rewrite Hm. cbn. rewrite Hc. reflexivity.
Qed.

(** ** The Outbound Sender *)

(** C5: with both credentials configured, [send_whatsapp_message] makes
    one POST and returns [True] exactly when the answer has status 200; it
    returns [False] on every other status and when [requests.post] raises.
    When WHATSAPP_TOKEN or WHATSAPP_PHONE_ID is absent it returns [False]
    and makes no POST. *)
Theorem send_whatsapp_message_result
    (environ : gmap string string) (net : network) (to message : value)
    (h : list event) (r : result bool) (t : list event) :
  send_whatsapp_message environ net to message h = (r, t) →
  let rq := send_request environ to message in
  let answer := net (h ++ [CallSend to message]) rq in
  (env_truthy (WHATSAPP_TOKEN environ) = true →
   env_truthy (WHATSAPP_PHONE_ID environ) = true →
   posts t = [Post rq] ∧
   (r = Ok true ↔ ∃ resp, answer = inr resp ∧ status_code resp = 200) ∧
   (∀ resp, answer = inr resp → status_code resp ≠ 200 → r = Ok false) ∧
   (∀ e, answer = inl e → r = Ok false)) ∧
  (WHATSAPP_TOKEN environ = None ∨ WHATSAPP_PHONE_ID environ = None →
   r = Ok false ∧ posts t = []).
Proof.
  rewrite send_whatsapp_message_run. cbv zeta. intros Hrun. split.
  - intros Htok Hid. rewrite Htok, Hid in Hrun. cbn [andb] in Hrun.
    destruct (net _ _) as [e | resp] eqn:Hnet.
    + injection Hrun as <- <-. split; [reflexivity |]. split; [| split].
      * split; [discriminate | intros (resp & [=] & _)].
      * intros resp [=].
      * reflexivity.
    + destruct (status_code resp =? 200) eqn:Hst; injection Hrun as <- <-.
      * apply Z.eqb_eq in Hst. split; [reflexivity |]. split; [| split].
        -- split; [eauto | reflexivity].
        -- intros resp' [= <-] Hne. contradiction.
        -- intros e [=].
      * apply Z.eqb_neq in Hst. split; [reflexivity |]. split; [| split].
        -- split; [discriminate | intros (resp' & [= <-] & H200); contradiction].
        -- reflexivity.
        -- intros e [=].
  - intros Habsent.
    assert (env_truthy (WHATSAPP_TOKEN environ) && env_truthy (WHATSAPP_PHONE_ID environ)
            = false) as Hguard.
    { destruct Habsent as [-> | ->]; [reflexivity | apply andb_false_r]. }
    rewrite Hguard in Hrun. injection Hrun as <- <-. split; reflexivity.
Qed.

(** The guard of the sender also rejects a credential set to the empty
    string. *)
Lemma send_whatsapp_message_empty_credential
    (environ : gmap string string) (net : network) (to message : value)
    (h : list event) :
  WHATSAPP_TOKEN environ = Some "" ∨ WHATSAPP_PHONE_ID environ = Some "" →
  fst (send_whatsapp_message environ net to message h) = Ok false ∧
  posts (snd (send_whatsapp_message environ net to message h)) = [].
Proof.
  intros Hempty. rewrite send_whatsapp_message_run. cbv zeta.
  assert (env_truthy (WHATSAPP_TOKEN environ) && env_truthy (WHATSAPP_PHONE_ID environ)
          = false) as ->.
  { destruct Hempty as [-> | ->]; [reflexivity | apply andb_false_r]. }
  split; reflexivity.
Qed.

(** The sender never raises. *)
Lemma send_whatsapp_message_returns
    (environ : gmap string string) (net : network) (to message : value)
    (h : list event) :
  ∃ b, fst (send_whatsapp_message environ net to message h) = Ok b.
Proof.
  rewrite send_whatsapp_message_run. cbv zeta.
  destruct (_ && _); [| eauto].
  destruct (net _ _) as [e | resp]; [eauto |].
  destruct (_ =? _); eauto.
Qed.

(** In a run of the sender the only function entry is its own. *)
Lemma send_whatsapp_message_calls
    (environ : gmap string string) (net : network) (to message : value)
    (h : list event) :
  calls (snd (send_whatsapp_message environ net to message h)) = [CallSend to message].
Proof.
  rewrite send_whatsapp_message_run. cbv zeta.
  destruct (_ && _); [| reflexivity].
  destruct (net _ _) as [e | resp]; [reflexivity |].
  destruct (_ =? _); reflexivity.
Qed.

(** ** The Completion Client *)

(** The client never raises, and whatever it returns is one of its three
    fixed strings or the content of a well-formed 200 answer. *)
Lemma get_deepseek_reply_returns
    (environ : gmap string string) (net : network) (user_message : value)
    (h : list event) :
  ∃ v, fst (get_deepseek_reply environ net user_message h) = Ok v ∧
    (v = VStr not_configured ∨ v = VStr sorry_trouble ∨ v = VStr sorry_error ∨
     ∃ resp j,
       net (h ++ [CallReply user_message]) (deepseek_request environ user_message)
         = inr resp ∧
       status_code resp = 200 ∧ json resp = Ok j ∧ content_at j v).
Proof.
  rewrite get_deepseek_reply_run. cbv zeta.
  destruct (env_truthy _); [| eexists; split; [reflexivity | auto]].
  destruct (net _ _) as [e | resp]; [eexists; split; [reflexivity | auto] |].
  destruct (status_code resp =? 200) eqn:Hst; [| eexists; split; [reflexivity | auto]].
  destruct (json resp) as [j | e] eqn:Hj; [| eexists; split; [reflexivity | auto]].
  destruct (first_choice_content j) as [c | e] eqn:Hc;
    [| eexists; split; [reflexivity | auto]].
  apply Z.eqb_eq in Hst. apply first_choice_content_Ok in Hc.
  exists c. split; [reflexivity |]. do 3 right. exists resp, j. auto.
Qed.

(** In a run of the client the only function entry is its own. *)
Lemma get_deepseek_reply_calls
    (environ : gmap string string) (net : network) (user_message : value)
    (h : list event) :
  calls (snd (get_deepseek_reply environ net user_message h)) = [CallReply user_message].
Proof.
  rewrite get_deepseek_reply_run. cbv zeta.
  destruct (env_truthy _); [| reflexivity].
  destruct (net _ _) as [e | resp]; [reflexivity |].
  destruct (_ =? _); [| reflexivity].
  destruct (json resp) as [j | e]; [| reflexivity].
  destruct (first_choice_content j); reflexivity.
Qed.

(** C3: with the API key configured, [get_deepseek_reply] makes one POST;
    on a 200 answer that carries choices[0].message.content it returns that
    content, on any other status it returns "Sorry, I'm having trouble
    processing your request right now.", when [requests.post] raises it
    returns "Sorry, I encountered an error while processing your message.",
    and in every case it returns a value instead of raising. *)
Theorem get_deepseek_reply_outcomes
    (environ : gmap string string) (net : network) (user_message : value)
    (h : list event) (r : result value) (t : list event) :
  env_truthy (DEEPSEEK_API_KEY environ) = true →
  get_deepseek_reply environ net user_message h = (r, t) →
  let rq := deepseek_request environ user_message in
  let answer := net (h ++ [CallReply user_message]) rq in
  (∀ resp j c,
     answer = inr resp → status_code resp = 200 → json resp = Ok j →
     content_at j c → r = Ok c) ∧
  (∀ resp,
     answer = inr resp → status_code resp ≠ 200 →
     r = Ok (VStr "Sorry, I'm having trouble processing your request right now.")) ∧
  (∀ e,
     answer = inl e →
     r = Ok (VStr "Sorry, I encountered an error while processing your message.")) ∧
  (∃ v, r = Ok v) ∧
  posts t = [Post rq].
Proof.
  intros Hkey. rewrite get_deepseek_reply_run, Hkey. cbv zeta. intros Hrun.
  destruct (net _ _) as [e | resp].
  { injection Hrun as <- <-. split; [intros resp j c [=] |].
    split; [intros resp [=] |]. eauto. }
  destruct (status_code resp =? 200) eqn:Hst.
  - apply Z.eqb_eq in Hst.
    split; [| split; [intros resp' [= <-] Hne; contradiction |
                      split; [intros e [=] |]]].
    + intros resp' j c [= <-] _ Hj Hc. apply first_choice_content_Ok in Hc.
      rewrite Hj, Hc in Hrun. injection Hrun as <- <-. reflexivity.
    + destruct (json resp) as [j | e]; [destruct (first_choice_content j) |];
        injection Hrun as <- <-; eauto.
  - apply Z.eqb_neq in Hst. injection Hrun as <- <-.
    split; [intros resp' j c [= <-] H200; contradiction |].
    split; [reflexivity |]. split; [intros e [=] | eauto].
Qed.

(** C7: with DEEPSEEK_API_KEY absent, [get_deepseek_reply] returns the
    fixed string "DeepSeek API key not configured!" and makes no POST. *)
Theorem get_deepseek_reply_no_key
    (environ : gmap string string) (net : network) (user_message : value)
    (h : list event) :
  DEEPSEEK_API_KEY environ = None →
  fst (get_deepseek_reply environ net user_message h)
    = Ok (VStr "DeepSeek API key not configured!") ∧
  posts (snd (get_deepseek_reply environ net user_message h)) = [].
Proof.
  intros Hkey. rewrite get_deepseek_reply_run, Hkey. split; reflexivity.
Qed.

(** The same holds for a key set to the empty string. *)
Lemma get_deepseek_reply_empty_key
    (environ : gmap string string) (net : network) (user_message : value)
    (h : list event) :
  DEEPSEEK_API_KEY environ = Some "" →
  fst (get_deepseek_reply environ net user_message h)
    = Ok (VStr "DeepSeek API key not configured!") ∧
  posts (snd (get_deepseek_reply environ net user_message h)) = [].
Proof.
  intros Hkey. rewrite get_deepseek_reply_run, Hkey. split; reflexivity.
Qed.

(** What [get_deepseek_reply] returns, outcome by outcome. *)
Lemma get_deepseek_reply_value
    (environ : gmap string string) (net : network) (user_message : value)
    (h : list event) (v : value) :
  fst (get_deepseek_reply environ net user_message h) = Ok v →
  let answer :=
    net (h ++ [CallReply user_message]) (deepseek_request environ user_message) in
  (env_truthy (DEEPSEEK_API_KEY environ) = false → v = VStr not_configured) ∧
  (env_truthy (DEEPSEEK_API_KEY environ) = true →
   (∀ e, answer = inl e → v = VStr sorry_error) ∧
   (∀ resp, answer = inr resp → status_code resp ≠ 200 → v = VStr sorry_trouble) ∧
   (∀ resp, answer = inr resp → status_code resp = 200 →
            (∀ j c, json resp = Ok j → ¬ content_at j c) → v = VStr sorry_error) ∧
   (∀ resp j c, answer = inr resp → status_code resp = 200 → json resp = Ok j →
                content_at j c → v = c)).
Proof.
  rewrite get_deepseek_reply_run. cbv zeta.
  destruct (env_truthy (DEEPSEEK_API_KEY environ)).
  2:{ intros [= <-]. split; [reflexivity | discriminate]. }
  intros Hv. split; [discriminate |]. intros _.
  destruct (net _ _) as [e | resp].
  { injection Hv as <-. split; [reflexivity |].
    split; [intros resp [=] |]. split; [intros resp [=] | intros resp j c [=]]. }
  destruct (status_code resp =? 200) eqn:Hst.
  - apply Z.eqb_eq in Hst. split; [intros e [=] |].
    split; [intros resp' [= <-] Hne; contradiction |].
    destruct (json resp) as [j | e] eqn:Hj.
    + destruct (first_choice_content j) as [c | e] eqn:Hc; injection Hv as <-.
      * split.
        -- intros resp' [= <-] _ Hbad. apply first_choice_content_Ok in Hc.
           exfalso. exact (Hbad j c Hj Hc).
        -- intros resp' j' c' [= <-] _ Hj' Hc'.
           rewrite Hj in Hj'. injection Hj' as <-.
           apply first_choice_content_Ok in Hc'. congruence.
      * split; [reflexivity |].
        intros resp' j' c' [= <-] _ Hj' Hc'.
        rewrite Hj in Hj'. injection Hj' as <-.
        apply first_choice_content_Ok in Hc'. congruence.
    + injection Hv as <-. split; [reflexivity |].
      intros resp' j' c' [= <-] _ Hj' _. congruence.
  - apply Z.eqb_neq in Hst. injection Hv as <-. split; [intros e [=] |].
    split; [reflexivity |].
    split; [intros resp' [= <-] H200 _; contradiction |
            intros resp' j c [= <-] H200; contradiction].
Qed.

(** C9, as the code has it: for every prompt and every answer of the
    network [get_deepseek_reply] returns a value and never raises; the
    value is a string except when a 200 answer carries a
    choices[0].message.content, which is returned as it is, string or not;
    and a 200 answer whose body is not JSON or lacks that path gives
    "Sorry, I encountered an error while processing your message.".  The
    other outcomes give the fixed strings of the code. *)
Theorem get_deepseek_reply_total
    (environ : gmap string string) (net : network) (user_message : value)
    (h : list event) :
  let answer :=
    net (h ++ [CallReply user_message]) (deepseek_request environ user_message) in
  ∃ v, fst (get_deepseek_reply environ net user_message h) = Ok v ∧
    ((∃ s, v = VStr s) ∨
     (∃ resp j, answer = inr resp ∧ status_code resp = 200 ∧
                json resp = Ok j ∧ content_at j v)) ∧
    (∀ resp j c,
       env_truthy (DEEPSEEK_API_KEY environ) = true →
       answer = inr resp → status_code resp = 200 → json resp = Ok j →
       content_at j c → v = c) ∧
    (∀ resp,
       env_truthy (DEEPSEEK_API_KEY environ) = true →
       answer = inr resp → status_code resp = 200 →
       (∀ j c, json resp = Ok j → ¬ content_at j c) →
       v = VStr "Sorry, I encountered an error while processing your message.") ∧
    (∀ resp,
       env_truthy (DEEPSEEK_API_KEY environ) = true →
       answer = inr resp → status_code resp ≠ 200 →
       v = VStr "Sorry, I'm having trouble processing your request right now.") ∧
    (∀ e,
       env_truthy (DEEPSEEK_API_KEY environ) = true →
       answer = inl e →
       v = VStr "Sorry, I encountered an error while processing your message.") ∧
    (env_truthy (DEEPSEEK_API_KEY environ) = false →
     v = VStr "DeepSeek API key not configured!").
Proof.
  cbv zeta.
  destruct (get_deepseek_reply_returns environ net user_message h) as (v & Hv & Hcases).
  destruct (get_deepseek_reply_value environ net user_message h v Hv)
    as [Hnokey Hkey].
  exists v. split; [exact Hv |]. split.
  { destruct Hcases as [-> | [-> | [-> | Hcontent]]]; eauto. }
  split; [intros resp j c Hk; destruct (Hkey Hk) as (_ & _ & _ & H); eauto |].
  split; [intros resp Hk; destruct (Hkey Hk) as (_ & _ & H & _); eauto |].
  split; [intros resp Hk; destruct (Hkey Hk) as (_ & H & _); eauto |].
  split; [intros e Hk; destruct (Hkey Hk) as (H & _); eauto |].
  exact Hnokey.
Qed.

(** ** The webhook view *)

Lemma bind_lift_Ok {A B} (a : A) (k : A → M B) (h : list event) :
  bind (lift (Ok a)) k h = k a h.
Proof. unfold bind, lift. rewrite app_nil_r. destruct (k a h). reflexivity. Qed.

Lemma bind_lift_Raise {A B} (e : exn) (k : A → M B) (h : list event) :
  bind (lift (Raise e)) k h = (Raise e, []).
Proof. reflexivity. Qed.

Lemma eq_str_true (v : value) (s : string) : eq_str v s = true ↔ v = VStr s.
Proof.
  destruct v; cbn; try (split; [discriminate | intros [=]]).
  rewrite String.eqb_eq. split; congruence.
Qed.

Lemma calls_app (t1 t2 : list event) : calls (t1 ++ t2) = calls t1 ++ calls t2.
Proof. apply List.filter_app. Qed.

(** Closes a case of the navigation in which nothing sits at the path. *)
Ltac no_message :=
  solve [ right; split;
          [ intros ? (? & ? & ? & ? & ? & ? & ? & ? & ? & ? & ? & ?); simplify_eq;
            rewrite ?getitem_int_0_list in *; cbn in *; simplify_eq
          | reflexivity ] ].

(** The navigation of [process_webhook] either finds the message at
    entry[0].changes[0].value.messages[0] and hands it to
    [handle_message], or finds none and then leaves no event at all
    (whether it stops quietly or by an exception). *)
Lemma process_webhook_cases
    (environ : gmap string string) (net : network) (data : value) (h : list event) :
  (∃ m, message_at data m ∧
        process_webhook environ net data h = handle_message environ net m h) ∨
  ((∀ m, ¬ message_at data m) ∧ snd (process_webhook environ net data h) = []).
Proof.
  unfold process_webhook.
  destruct data as [| | | | | | d]; try no_message.
  cbn [py_get]. rewrite bind_lift_Ok.
  destruct (d !! "entry") as [entry |] eqn:Hentry; cbn [default from_option id]; [| no_message].
  destruct (truthy entry) eqn:Htr; [| no_message].
  destruct (getitem_int entry 0) as [entry0 | ex] eqn:Hentry0;
    [rewrite bind_lift_Ok | rewrite bind_lift_Raise; no_message].
  destruct (py_get entry0 "changes" (VList [])) as [changes | ex] eqn:Hchanges;
    [rewrite bind_lift_Ok | rewrite bind_lift_Raise; no_message].
  destruct (getitem_0_then_get _ _ _ _ _ Hentry0 Hchanges) as (e & er & -> & ->).
  clear Hentry0 Htr. cbn [py_get] in Hchanges. injection Hchanges as <-.
  destruct (e !! "changes") as [changes |] eqn:Hch; cbn [default from_option id]; [| no_message].
  destruct (truthy changes) eqn:Htr; [| no_message].
  destruct (getitem_int changes 0) as [changes0 | ex] eqn:Hchanges0;
    [rewrite bind_lift_Ok | rewrite bind_lift_Raise; no_message].
  destruct (py_get changes0 "value" (VDict ∅)) as [value | ex] eqn:Hvalue;
    [rewrite bind_lift_Ok | rewrite bind_lift_Raise; no_message].
  destruct (getitem_0_then_get _ _ _ _ _ Hchanges0 Hvalue) as (c & cr & -> & ->).
  clear Hchanges0 Htr. cbn [py_get] in Hvalue. injection Hvalue as <-.
  destruct (c !! "value") as [value |] eqn:Hval; cbn [default from_option id].
  2:{ cbn [py_get default from_option id]. rewrite bind_lift_Ok. cbn. no_message. }
  destruct value as [| | | | | | v];
    try (cbn [py_get default from_option id]; rewrite bind_lift_Raise; no_message).
  cbn [py_get default from_option id]. rewrite bind_lift_Ok.
  destruct (v !! "messages") as [messages |] eqn:Hmsgs; cbn [default from_option id]; [| no_message].
  destruct messages as [| | | | s | l |]; try (destruct (truthy _); no_message).
  - (* a string: its first character is a string, not a message *)
    destruct s as [| ch s]; [no_message |].
    cbn [default from_option id truthy String.eqb negb]. rewrite getitem_int_0_str, bind_lift_Ok.
    no_message.
  - destruct l as [| m mr]; [no_message |].
    cbn [default from_option id truthy]. rewrite getitem_int_0_list, bind_lift_Ok.
    left. exists m. split; [| reflexivity].
    exists d, e, c, v, er, cr, mr. auto.
Qed.

(** A message that is not a [dict] stops [handle_message] at once. *)
Lemma handle_message_not_dict
    (environ : gmap string string) (net : network) (m : value) (h : list event) :
  (∀ md, m ≠ VDict md) →
  handle_message environ net m h = (Raise AttributeError, []).
Proof.
  intros Hm. unfold handle_message. destruct m; try reflexivity. exfalso. by eapply Hm.
Qed.

(** A message of another type is logged and nothing else happens. *)
Lemma handle_message_other_type
    (environ : gmap string string) (net : network) (md : gmap string value)
    (h : list event) :
  md !! "type" ≠ Some (VStr "text") →
  handle_message environ net (VDict md) h =
    (Ok tt, [Log INFO "Received non-text message type: {message_type}"
               [LVal (default VNone (md !! "type"))]]).
Proof.
  intros Hty. unfold handle_message. cbn [py_get]. rewrite !bind_lift_Ok.
  destruct (eq_str _ _) eqn:Heq; [| reflexivity].
  apply eq_str_true in Heq. destruct (md !! "type"); cbn in Heq; congruence.
Qed.

Lemma bind_emit {B} (ev : event) (k : unit → M B) (h : list event) :
  bind (emit ev) k h = let '(r, t) := k tt (h ++ [ev]) in (r, ev :: t).
Proof. reflexivity. Qed.

Lemma bind_Ok {A B} (m : M A) (k : A → M B) (h : list event) (a : A) (t : list event) :
  m h = (Ok a, t) → bind m k h = let '(r, t') := k a (h ++ t) in (r, t ++ t').
Proof. intros Hm. unfold bind. rewrite Hm. reflexivity. Qed.

(** A text message: the completion is asked for the body and its answer
    is sent to the sender of the message. *)
Lemma handle_message_text
    (environ : gmap string string) (net : network) (md td : gmap string value)
    (h : list event) :
  md !! "type" = Some (VStr "text") →
  default (VDict ∅) (md !! "text") = VDict td →
  let from_number := default VNone (md !! "from") in
  let user_text := default (VStr "") (td !! "body") in
  let received := Log INFO "Received message from {from_number}: {user_text}"
                    [LVal from_number; LVal user_text] in
  ∃ reply t1 t2,
    get_deepseek_reply environ net user_text (h ++ [received]) = (Ok reply, t1) ∧
    calls t2 = [CallSend from_number reply] ∧
    handle_message environ net (VDict md) h
      = (Ok tt, received :: t1 ++ Log INFO "AI response: {ai_response}" [LVal reply] :: t2).
Proof.
  intros Hty Htext. cbv zeta.
  set (from_number := default VNone (md !! "from")).
  set (user_text := default (VStr "") (td !! "body")).
  set (h1 := h ++ [_]).
  destruct (get_deepseek_reply_returns environ net user_text h1) as (reply & Hreply & _).
  destruct (get_deepseek_reply environ net user_text h1) as [r1 t1] eqn:Hrun1.
  cbn [fst] in Hreply. subst r1.
  set (h2 := (h1 ++ t1) ++ [Log INFO "AI response: {ai_response}" [LVal reply]]).
  destruct (send_whatsapp_message_returns environ net from_number reply h2) as (b & Hb).
  pose proof (send_whatsapp_message_calls environ net from_number reply h2) as Hcalls2.
  destruct (send_whatsapp_message environ net from_number reply h2) as [r2 t2] eqn:Hrun2.
  cbn [fst snd] in Hb, Hcalls2. subst r2.
  exists reply, t1, t2. split; [reflexivity |]. split; [exact Hcalls2 |].
  unfold handle_message. cbn [py_get]. rewrite !bind_lift_Ok, Hty.
  cbn [default from_option id eq_str]. rewrite String.eqb_refl, bind_lift_Ok.
  rewrite Htext. cbn [py_get]. rewrite bind_lift_Ok.
  fold from_number user_text.
  unfold logger_info. rewrite bind_emit. fold h1.
  rewrite (bind_Ok _ _ _ _ _ Hrun1), bind_emit. fold h2.
  rewrite (bind_Ok _ _ _ _ _ Hrun2). cbn [ret].
  rewrite app_nil_r. reflexivity.
Qed.

(** Every path through the POST branch ends in ("OK", 200); an exception
    of [process_webhook] is logged. *)
Lemma webhook_post_run
    (environ : gmap string string) (net : network) (qs : gmap string string)
    (data : value) (h : list event) :
  let received := Log INFO "Received webhook data: {data}" [LVal data] in
  let run := process_webhook environ net data (h ++ [received]) in
  webhook environ net (mkRequest "POST" qs (Ok data)) h =
    (Ok (Some (VStr "OK", 200)),
     received :: snd run ++
       match fst run with
       | Ok _ => []
       | Raise e => [Log ERROR "Error processing webhook: {e}" [LExn e]]
       end).
Proof.
  cbv zeta. unfold webhook. cbn [method get_json String.eqb Ascii.eqb Bool.eqb].
  rewrite bind_lift_Ok. unfold logger_info. rewrite bind_emit.
  unfold bind, try_except, logger_error, emit, ret.
  destruct (process_webhook _ _ _ _) as [[[] | e] t]; cbn [fst snd];
    rewrite ?app_nil_r; reflexivity.
Qed.

Import Examples.

(** The whole relay on the delivery of "Hello": one POST to the completion
    endpoint, one POST to the send endpoint. *)
Example webhook_hello_posts :
  posts (snd (webhook env_full (net_reply (VStr "Hi!"))
                (post_request (Ok (delivery hello))) []))
    = [Post (deepseek_request env_full (VStr "Hello"));
       Post (send_request env_full (VStr "1555000111") (VStr "Hi!"))].
Proof. vm_compute. reflexivity. Qed.

(** When the completion endpoint answers 500, the fallback string is what
    is sent back. *)
Example webhook_hello_upstream_500 :
  calls (snd (webhook env_full (net_status 500)
                (post_request (Ok (delivery hello))) []))
    = [CallReply (VStr "Hello");
       CallSend (VStr "1555000111")
         (VStr "Sorry, I'm having trouble processing your request right now.")].
Proof. vm_compute. reflexivity. Qed.

(** A JSON body [null]: [data.get] raises inside the [try], the exception
    is logged, the answer is still ("OK", 200). *)
Example webhook_null_body :
  webhook env_full net_down (post_request (Ok VNone)) []
    = (Ok (Some (VStr "OK", 200)),
       [Log INFO "Received webhook data: {data}" [LVal VNone];
        Log ERROR "Error processing webhook: {e}" [LExn AttributeError]]).
Proof. reflexivity. Qed.

(** With nothing configured the check names all three variables. *)
Example check_configuration_nothing_set :
  check_configuration ∅ []
    = (Ok false,
       [Log ERROR "Missing required environment variables: {', '.join(missing_vars)}"
          [LVal (VStr "WHATSAPP_TOKEN, WHATSAPP_PHONE_ID, DEEPSEEK_API_KEY")];
        Log ERROR "Please configure your .env file with the required credentials." []]).
Proof. reflexivity. Qed.

(** C1, as the code has it: for every POST whose body the framework
    parses (request.get_json() returns a value, whatever its shape), the
    view answers ("OK", 200), also when extraction or orchestration raises
    inside the [try]. *)
Theorem webhook_post_always_ok
    (environ : gmap string string) (net : network) (qs : gmap string string)
    (data : value) (h : list event) :
  fst (webhook environ net (mkRequest "POST" qs (Ok data)) h)
    = Ok (Some (VStr "OK", 200)).
Proof. rewrite webhook_post_run. reflexivity. Qed.

(** C1 as stated fails: request.get_json() is called before the [try]
    (line 101), so for a body that is not well-formed JSON its exception
    leaves the view and no ("OK", 200) is returned. *)
Lemma webhook_post_malformed_body_raises :
  fst (webhook env_full net_down (post_request (Raise BadRequest)) []) = Raise BadRequest ∧
  fst (webhook env_full net_down (post_request (Raise BadRequest)) [])
    ≠ Ok (Some (VStr "OK", 200)).
Proof. split; [reflexivity | discriminate]. Qed.

(** C2: a GET with mode "subscribe" and the configured verify token is
    answered with the challenge and status 200; every other GET is
    answered with "Verification failed" and status 403. *)
Theorem webhook_get_verification
    (environ : gmap string string) (net : network) (qs : gmap string string)
    (body : result value) (h : list event) :
  let response := fst (webhook environ net (mkRequest "GET" qs body) h) in
  let challenge :=
    match qs !! "hub.challenge" with Some c => VStr c | None => VNone end in
  (qs !! "hub.mode" = Some "subscribe" ∧
   qs !! "hub.verify_token" = Some (VERIFY_TOKEN environ) →
   response = Ok (Some (challenge, 200))) ∧
  (¬ (qs !! "hub.mode" = Some "subscribe" ∧
      qs !! "hub.verify_token" = Some (VERIFY_TOKEN environ)) →
   response = Ok (Some (VStr "Verification failed", 403))).
Proof.
  cbv zeta. unfold webhook, args_get. cbn [method args String.eqb Ascii.eqb Bool.eqb].
  unfold logger_info, logger_error, bind, emit, ret.
  split.
  - intros [-> ->]. cbn [eq_str]. rewrite !String.eqb_refl. reflexivity.
  - intros Hno.
    destruct (eq_str _ "subscribe" && eq_str _ (VERIFY_TOKEN environ)) eqn:Hguard;
      [| reflexivity].
    exfalso. apply Hno. apply andb_true_iff in Hguard as [Hmode Htoken].
    apply eq_str_true in Hmode, Htoken.
    destruct (qs !! "hub.mode"), (qs !! "hub.verify_token"); simplify_eq. done.
Qed.

(** The message at the path is unique. *)
Lemma message_at_unique (data m m' : value) :
  message_at data m → message_at data m' → m = m'.
Proof.
  intros (? & ? & ? & ? & ? & ? & ? & ? & ? & ? & ? & ?)
         (? & ? & ? & ? & ? & ? & ? & ? & ? & ? & ? & ?).
  by simplify_eq.
Qed.

(** Without a text message at the path the POST branch is silent towards
    the network. *)
Lemma webhook_post_quiet
    (environ : gmap string string) (net : network) (qs : gmap string string)
    (data : value) (h : list event) :
  (∀ m md, message_at data m → m = VDict md → md !! "type" ≠ Some (VStr "text")) →
  let run := webhook environ net (mkRequest "POST" qs (Ok data)) h in
  fst run = Ok (Some (VStr "OK", 200)) ∧ posts (snd run) = [] ∧ calls (snd run) = [].
Proof.
  intros Hnot. cbv zeta. rewrite webhook_post_run. cbv zeta. cbn [fst snd].
  split; [reflexivity |].
  set (h0 := h ++ [_]).
  destruct (process_webhook_cases environ net data h0) as [(m & Hat & ->) | [_ Hnone]].
  - destruct m as [| | | | | | md];
      try (rewrite handle_message_not_dict by discriminate; split; reflexivity).
    rewrite handle_message_other_type by (eapply Hnot; [exact Hat | reflexivity]).
    split; reflexivity.
  - destruct (process_webhook environ net data h0) as [[[] | e] t];
      cbn [fst snd] in *; subst t; split; reflexivity.
Qed.

(** C6: when no message sits at entry[0].changes[0].value.messages[0], or
    the message there is not of type "text", the POST branch makes no
    outbound HTTP call, enters neither client, and answers ("OK", 200). *)
Theorem webhook_post_no_text_message
    (environ : gmap string string) (net : network) (qs : gmap string string)
    (data : value) (h : list event) :
  (∀ m, ¬ message_at data m) ∨
  (∃ m, message_at data m ∧ ∀ md, m = VDict md → md !! "type" ≠ Some (VStr "text")) →
  let run := webhook environ net (mkRequest "POST" qs (Ok data)) h in
  fst run = Ok (Some (VStr "OK", 200)) ∧ posts (snd run) = [] ∧ calls (snd run) = [].
Proof.
  intros Hcases. apply webhook_post_quiet. intros m md Hat Hm.
  destruct Hcases as [Hnone | (m' & Hat' & Hty)].
  - exfalso. exact (Hnone m Hat).
  - apply Hty. rewrite (message_at_unique _ _ _ Hat' Hat). exact Hm.
Qed.

(** A delivery with a text message: the POST branch enters the Completion
    Client with the body of the message and then the Outbound Sender with
    the sender of the message and what the client returned. *)
Lemma webhook_post_text_message
    (environ : gmap string string) (net : network) (qs : gmap string string)
    (data : value) (md td : gmap string value) (h : list event) :
  message_at data (VDict md) →
  md !! "type" = Some (VStr "text") →
  default (VDict ∅) (md !! "text") = VDict td →
  let from_number := default VNone (md !! "from") in
  let user_text := default (VStr "") (td !! "body") in
  let h1 := h ++ [Log INFO "Received webhook data: {data}" [LVal data];
                  Log INFO "Received message from {from_number}: {user_text}"
                    [LVal from_number; LVal user_text]] in
  ∃ reply,
    fst (get_deepseek_reply environ net user_text h1) = Ok reply ∧
    calls (snd (webhook environ net (mkRequest "POST" qs (Ok data)) h))
      = [CallReply user_text; CallSend from_number reply].
Proof.
  intros Hat Hty Htext. cbv zeta. rewrite webhook_post_run. cbv zeta. cbn [snd].
  set (h0 := h ++ [_]).
  destruct (process_webhook_cases environ net data h0) as [(m & Hat' & ->) | [Hnone _]].
  2:{ exfalso. exact (Hnone _ Hat). }
  rewrite <- (message_at_unique _ _ _ Hat Hat').
  destruct (handle_message_text environ net md td h0 Hty Htext)
    as (reply & t1 & t2 & Hrun1 & Hcalls2 & ->).
  pose proof (get_deepseek_reply_calls environ net (default (VStr "") (td !! "body"))
                (h0 ++ [Log INFO "Received message from {from_number}: {user_text}"
                          [LVal (default VNone (md !! "from"));
                           LVal (default (VStr "") (td !! "body"))]]))
    as Hcalls1.
  rewrite Hrun1 in Hcalls1. cbn [snd] in Hcalls1.
  unfold h0 in Hrun1. rewrite <- app_assoc in Hrun1. cbn [app] in Hrun1.
  exists reply. rewrite Hrun1. split; [reflexivity |].
  cbn [fst snd]. rewrite app_nil_r.
  change (?x :: ?y :: t1 ++ ?z :: t2) with ([x; y] ++ t1 ++ [z] ++ t2).
  rewrite !calls_app, Hcalls1, Hcalls2. reflexivity.
Qed.

(** C10: a message of type "text" without a text object, or with a text
    object without "body", still reaches the Completion Client, with the
    empty string as prompt; the reply goes to the Outbound Sender. *)
Theorem webhook_post_text_without_body
    (environ : gmap string string) (net : network) (qs : gmap string string)
    (data : value) (md : gmap string value) (h : list event) :
  message_at data (VDict md) →
  md !! "type" = Some (VStr "text") →
  (md !! "text" = None ∨
   ∃ td, md !! "text" = Some (VDict td) ∧ td !! "body" = None) →
  ∃ reply,
    calls (snd (webhook environ net (mkRequest "POST" qs (Ok data)) h))
      = [CallReply (VStr ""); CallSend (default VNone (md !! "from")) reply].
Proof.
  intros Hat Hty Hbody.
  assert (∃ td, default (VDict ∅) (md !! "text") = VDict td ∧ td !! "body" = None)
    as (td & Htext & Hnobody).
  { destruct Hbody as [-> | (td & -> & Hnb)]; [exists ∅ | exists td]; done. }
  destruct (webhook_post_text_message environ net qs data md td h Hat Hty Htext)
    as (reply & _ & Hcalls).
  rewrite Hnobody in Hcalls. eauto.
Qed.

(** C4, as the code has it: for a delivery with the text message "Hello"
    from "1555000111" the view enters the Completion Client with prompt
    "Hello" and then, whatever came of the completion call, the Outbound
    Sender with recipient "1555000111" and the value the client returned:
    "DeepSeek API key not configured!" when the key is not configured,
    "Sorry, I'm having trouble processing your request right now." when the
    answer has a status other than 200, "Sorry, I encountered an error
    while processing your message." when the POST raises or a 200 answer
    carries no content, and the content of the answer as it is when a 200
    answer carries one. *)
Theorem webhook_post_hello
    (environ : gmap string string) (net : network) (qs : gmap string string)
    (data : value) (md td : gmap string value) (h : list event) :
  message_at data (VDict md) →
  md !! "from" = Some (VStr "1555000111") →
  md !! "type" = Some (VStr "text") →
  md !! "text" = Some (VDict td) →
  td !! "body" = Some (VStr "Hello") →
  let h1 := h ++ [Log INFO "Received webhook data: {data}" [LVal data];
                  Log INFO "Received message from {from_number}: {user_text}"
                    [LVal (VStr "1555000111"); LVal (VStr "Hello")]] in
  let answer :=
    net (h1 ++ [CallReply (VStr "Hello")]) (deepseek_request environ (VStr "Hello")) in
  ∃ reply,
    fst (get_deepseek_reply environ net (VStr "Hello") h1) = Ok reply ∧
    calls (snd (webhook environ net (mkRequest "POST" qs (Ok data)) h))
      = [CallReply (VStr "Hello"); CallSend (VStr "1555000111") reply] ∧
    (env_truthy (DEEPSEEK_API_KEY environ) = false →
     reply = VStr "DeepSeek API key not configured!") ∧
    (env_truthy (DEEPSEEK_API_KEY environ) = true →
     (∀ e, answer = inl e →
           reply = VStr "Sorry, I encountered an error while processing your message.") ∧
     (∀ resp, answer = inr resp → status_code resp ≠ 200 →
              reply = VStr "Sorry, I'm having trouble processing your request right now.") ∧
     (∀ resp, answer = inr resp → status_code resp = 200 →
              (∀ j c, json resp = Ok j → ¬ content_at j c) →
              reply = VStr "Sorry, I encountered an error while processing your message.") ∧
     (∀ resp j c, answer = inr resp → status_code resp = 200 → json resp = Ok j →
                  content_at j c → reply = c)).
Proof.
  intros Hat Hfrom Hty Htext Hbody. cbv zeta.
  assert (default (VDict ∅) (md !! "text") = VDict td) as Htext' by (by rewrite Htext).
  destruct (webhook_post_text_message environ net qs data md td h Hat Hty Htext')
    as (reply & Hreply & Hcalls).
  rewrite Hfrom, Hbody in Hreply, Hcalls. cbn [default from_option id] in Hreply, Hcalls.
  exists reply. split; [exact Hreply |]. split; [exact Hcalls |].
  exact (get_deepseek_reply_value environ net (VStr "Hello") _ reply Hreply).
Qed.

(** C4 as stated fails: when the completion succeeds with an empty
    content, the Outbound Sender is entered with the empty string. *)
Lemma webhook_post_hello_empty_reply :
  let t := snd (webhook env_full (net_reply (VStr ""))
                  (post_request (Ok (delivery hello))) []) in
  message_at (delivery hello) hello ∧
  calls t = [CallReply (VStr "Hello"); CallSend (VStr "1555000111") (VStr "")] ∧
  ¬ ∃ body, In (CallSend (VStr "1555000111") (VStr body)) (calls t) ∧ body ≠ "".
Proof.
  cbv zeta.
  assert (calls (snd (webhook env_full (net_reply (VStr ""))
                        (post_request (Ok (delivery hello))) []))
          = [CallReply (VStr "Hello"); CallSend (VStr "1555000111") (VStr "")])
    as Hcalls by (vm_compute; reflexivity).
  split; [| split; [exact Hcalls |]].
  - unfold message_at, delivery. do 4 eexists. exists [], [], [].
    repeat split; reflexivity.
  - rewrite Hcalls. intros (body & [Hin | [Hin | []]] & Hne); [discriminate |].
    injection Hin as <-. by apply Hne.
Qed.

(** ** The start-up check *)

(** C8, as the code has it: a variable counts as missing when it is unset
    or set to the empty string; [check_configuration] fails exactly when
    some variable is missing, and then reports the names of the missing
    ones, in the order WHATSAPP_TOKEN, WHATSAPP_PHONE_ID,
    DEEPSEEK_API_KEY; it succeeds when none is missing. *)
Theorem check_configuration_reports_missing
    (environ : gmap string string) (h : list event) :
  let missing :=
    List.filter (λ name, negb (env_truthy (environ !! name)))
      ["WHATSAPP_TOKEN"; "WHATSAPP_PHONE_ID"; "DEEPSEEK_API_KEY"] in
  missing_vars environ = missing ∧
  check_configuration environ h =
    match missing with
    | [] =>
        (Ok true, [Log INFO "All required environment variables are configured!" []])
    | _ :: _ =>
        (Ok false,
         [Log ERROR "Missing required environment variables: {', '.join(missing_vars)}"
            [LVal (VStr (String.concat ", " missing))];
          Log ERROR "Please configure your .env file with the required credentials." []])
    end.
Proof.
  cbv zeta.
  assert (missing_vars environ =
          List.filter (λ name, negb (env_truthy (environ !! name)))
            ["WHATSAPP_TOKEN"; "WHATSAPP_PHONE_ID"; "DEEPSEEK_API_KEY"]) as Hmissing.
  { unfold missing_vars, WHATSAPP_TOKEN, WHATSAPP_PHONE_ID, DEEPSEEK_API_KEY.
    cbn [List.filter].
    destruct (env_truthy (environ !! "WHATSAPP_TOKEN")),
             (env_truthy (environ !! "WHATSAPP_PHONE_ID")),
             (env_truthy (environ !! "DEEPSEEK_API_KEY")); reflexivity. }
  split; [exact Hmissing |].
  unfold check_configuration. rewrite Hmissing.
  destruct (List.filter _ _); reflexivity.
Qed.

(** C8 as stated fails: with WHATSAPP_TOKEN set to the empty string all
    three variables are set, and the check fails and reports
    WHATSAPP_TOKEN. *)
Lemma check_configuration_empty_value :
  (∀ name, In name ["WHATSAPP_TOKEN"; "WHATSAPP_PHONE_ID"; "DEEPSEEK_API_KEY"] →
           is_Some (env_empty_token !! name)) ∧
  fst (check_configuration env_empty_token []) = Ok false ∧
  missing_vars env_empty_token = ["WHATSAPP_TOKEN"].
Proof.
  split; [| split; reflexivity].
  intros name [<- | [<- | [<- | []]]]; eexists; reflexivity.
Qed.

(** C9 as stated fails: a 200 answer whose first choice has a null
    content makes the client return [None], which is not a string. *)
Lemma get_deepseek_reply_null_content :
  content_at (completion VNone) VNone ∧
  fst (get_deepseek_reply env_full (net_reply VNone) (VStr "Hello") []) = Ok VNone ∧
  ¬ ∃ s, fst (get_deepseek_reply env_full (net_reply VNone) (VStr "Hello") [])
         = Ok (VStr s).
Proof.
  assert (fst (get_deepseek_reply env_full (net_reply VNone) (VStr "Hello") []) = Ok VNone)
    as Hrun by reflexivity.
  split; [| split; [exact Hrun |]].
  - unfold content_at, completion. do 3 eexists. exists []. repeat split; reflexivity.
  - rewrite Hrun. intros (s & [=]).
Qed.

(** ** The theorems at concrete inputs *)

Lemma send_whatsapp_message_result_witness :
  env_truthy (WHATSAPP_TOKEN env_full) = true ∧
  env_truthy (WHATSAPP_PHONE_ID env_full) = true ∧
  fst (send_whatsapp_message env_full (net_reply VNone)
         (VStr "1555000111") (VStr "Hi!") []) = Ok true.
Proof.
  split; [reflexivity |]. split; [reflexivity |].
  destruct (send_whatsapp_message_result env_full (net_reply VNone)
              (VStr "1555000111") (VStr "Hi!") [] _ _ eq_refl) as [Hconfigured _].
  destruct (Hconfigured eq_refl eq_refl) as (_ & Hiff & _).
  apply Hiff. eexists. split; reflexivity.
Defined.

Lemma get_deepseek_reply_outcomes_witness :
  env_truthy (DEEPSEEK_API_KEY env_full) = true ∧
  fst (get_deepseek_reply env_full (net_reply (VStr "Hi!")) (VStr "Hello") [])
    = Ok (VStr "Hi!").
Proof.
  split; [reflexivity |].
  destruct (get_deepseek_reply_outcomes env_full (net_reply (VStr "Hi!"))
              (VStr "Hello") [] _ _ eq_refl eq_refl) as (H200 & _).
  apply (H200 (ok_response (completion (VStr "Hi!"))) (completion (VStr "Hi!")));
    try reflexivity.
  unfold content_at, completion. do 3 eexists. exists []. repeat split; reflexivity.
Defined.

Lemma get_deepseek_reply_no_key_witness :
  DEEPSEEK_API_KEY ∅ = None ∧
  fst (get_deepseek_reply ∅ net_down (VStr "Hello") [])
    = Ok (VStr "DeepSeek API key not configured!") ∧
  posts (snd (get_deepseek_reply ∅ net_down (VStr "Hello") [])) = [].
Proof.
  split; [reflexivity |].
  apply (get_deepseek_reply_no_key ∅ net_down (VStr "Hello") []). reflexivity.
Defined.

Lemma get_deepseek_reply_total_witness :
  fst (get_deepseek_reply env_full (net_status 200) (VStr "Hello") [])
    = Ok (VStr "Sorry, I encountered an error while processing your message.") ∧
  fst (get_deepseek_reply env_full (net_reply VNone) (VStr "Hello") []) = Ok VNone ∧
  fst (get_deepseek_reply env_full (net_reply (VStr "Hi!")) (VStr "Hello") [])
    = Ok (VStr "Hi!").
Proof.
  split; [| split].
  - destruct (get_deepseek_reply_total env_full (net_status 200) (VStr "Hello") [])
      as (v & Hv & _ & _ & Hmalformed & _).
    rewrite Hv. f_equal.
    apply (Hmalformed (mkResponse 200 "upstream error" (Raise JSONDecodeError)));
      try reflexivity.
    intros j c [=].
  - destruct (get_deepseek_reply_total env_full (net_reply VNone) (VStr "Hello") [])
      as (v & Hv & _ & Hcontent & _).
    rewrite Hv. f_equal.
    apply (Hcontent (ok_response (completion VNone)) (completion VNone));
      try reflexivity.
    unfold content_at, completion. do 3 eexists. exists []. repeat split; reflexivity.
  - destruct (get_deepseek_reply_total env_full (net_reply (VStr "Hi!")) (VStr "Hello") [])
      as (v & Hv & _ & Hcontent & _).
    rewrite Hv. f_equal.
    apply (Hcontent (ok_response (completion (VStr "Hi!"))) (completion (VStr "Hi!")));
      try reflexivity.
    unfold content_at, completion. do 3 eexists. exists []. repeat split; reflexivity.
Defined.

Lemma webhook_get_verification_witness :
  verify_query "deepseek-bot" !! "hub.mode" = Some "subscribe" ∧
  verify_query "deepseek-bot" !! "hub.verify_token" = Some (VERIFY_TOKEN env_full) ∧
  fst (webhook env_full net_down
         (mkRequest "GET" (verify_query "deepseek-bot") (Raise BadRequest)) [])
    = Ok (Some (VStr "1158201444", 200)).
Proof.
  split; [reflexivity |]. split; [reflexivity |].
  destruct (webhook_get_verification env_full net_down (verify_query "deepseek-bot")
              (Raise BadRequest) []) as [Hverified _].
  apply Hverified. split; reflexivity.
Defined.

(** [delivery m] carries [m] at the path, and nothing else. *)
Lemma delivery_message (m : value) : message_at (delivery m) m.
Proof.
  unfold message_at, delivery. do 4 eexists. exists [], [], [].
  repeat split; reflexivity.
Qed.

Lemma image_is_not_text (md : gmap string value) :
  image = VDict md → md !! "type" ≠ Some (VStr "text").
Proof. unfold image. intros [= <-]. vm_compute. discriminate. Qed.

Lemma status_update_has_no_message (m : value) : ¬ message_at status_update m.
Proof.
  intros (? & ? & ? & ? & ? & ? & ? & ? & ? & ? & ? & ?).
  unfold status_update in *. simplify_eq. vm_compute in *. simplify_eq.
Qed.

Lemma webhook_post_no_text_message_witness :
  (∀ m, ¬ message_at status_update m) ∧
  (message_at (delivery image) image ∧
   ∀ md, image = VDict md → md !! "type" ≠ Some (VStr "text")) ∧
  (let run := webhook env_full net_down (post_request (Ok status_update)) [] in
   fst run = Ok (Some (VStr "OK", 200)) ∧ posts (snd run) = [] ∧ calls (snd run) = []) ∧
  (let run := webhook env_full net_down (post_request (Ok (delivery image))) [] in
   fst run = Ok (Some (VStr "OK", 200)) ∧ posts (snd run) = [] ∧ calls (snd run) = []).
Proof.
  split; [exact status_update_has_no_message |].
  split; [split; [apply delivery_message | exact image_is_not_text] |].
  split.
  - apply (webhook_post_no_text_message env_full net_down ∅ status_update []).
    left. exact status_update_has_no_message.
  - apply (webhook_post_no_text_message env_full net_down ∅ (delivery image) []).
    right. exists image. split; [apply delivery_message | exact image_is_not_text].
Defined.

Lemma webhook_post_text_without_body_witness :
  message_at (delivery text_without_body) text_without_body ∧
  ∃ reply,
    calls (snd (webhook env_full net_down
                  (post_request (Ok (delivery text_without_body))) []))
      = [CallReply (VStr ""); CallSend (VStr "1555000111") reply].
Proof.
  split; [apply delivery_message |].
  destruct (webhook_post_text_without_body env_full net_down ∅
              (delivery text_without_body)
              {[ "from" := VStr "1555000111"; "type" := VStr "text" ]} [])
    as (reply & Hcalls).
  - apply delivery_message.
  - reflexivity.
  - left. reflexivity.
  - exists reply. exact Hcalls.
Defined.

Lemma webhook_post_hello_witness :
  message_at (delivery hello) hello ∧
  calls (snd (webhook env_full (net_reply (VStr "Hi!"))
                (post_request (Ok (delivery hello))) []))
    = [CallReply (VStr "Hello"); CallSend (VStr "1555000111") (VStr "Hi!")] ∧
  calls (snd (webhook env_full (net_status 500)
                (post_request (Ok (delivery hello))) []))
    = [CallReply (VStr "Hello");
       CallSend (VStr "1555000111")
         (VStr "Sorry, I'm having trouble processing your request right now.")].
Proof.
  split; [apply delivery_message |]. split.
  - destruct (webhook_post_hello env_full (net_reply (VStr "Hi!")) ∅ (delivery hello)
                {[ "from" := VStr "1555000111"; "type" := VStr "text";
                   "text" := VDict {[ "body" := VStr "Hello" ]} ]}
                {[ "body" := VStr "Hello" ]} []
                (delivery_message hello) eq_refl eq_refl eq_refl eq_refl)
      as (reply & _ & Hcalls & _ & Hkey).
    destruct (Hkey eq_refl) as (_ & _ & _ & Hcontent).
    assert (reply = VStr "Hi!") as ->; [| exact Hcalls].
    apply (Hcontent (ok_response (completion (VStr "Hi!"))) (completion (VStr "Hi!")));
      try reflexivity.
    unfold content_at, completion. do 3 eexists. exists []. repeat split; reflexivity.
  - destruct (webhook_post_hello env_full (net_status 500) ∅ (delivery hello)
                {[ "from" := VStr "1555000111"; "type" := VStr "text";
                   "text" := VDict {[ "body" := VStr "Hello" ]} ]}
                {[ "body" := VStr "Hello" ]} []
                (delivery_message hello) eq_refl eq_refl eq_refl eq_refl)
      as (reply & _ & Hcalls & _ & Hkey).
    destruct (Hkey eq_refl) as (_ & Hstatus & _).
    assert (reply = VStr "Sorry, I'm having trouble processing your request right now.")
      as ->; [| exact Hcalls].
    apply (Hstatus (mkResponse 500 "upstream error" (Raise JSONDecodeError)));
      [reflexivity | discriminate].
Defined.

(** ** Further runs *)

Lemma send_whatsapp_message_posts
    (environ : gmap string string) (net : network) (to message : value)
    (h : list event) :
  posts (snd (send_whatsapp_message environ net to message h)) =
    if env_truthy (WHATSAPP_TOKEN environ) && env_truthy (WHATSAPP_PHONE_ID environ)
    then [Post (send_request environ to message)] else [].
Proof.
  rewrite send_whatsapp_message_run. cbv zeta.
  destruct (_ && _); [| reflexivity].
  destruct (net _ _) as [e | resp]; [reflexivity |].
  destruct (_ =? _); reflexivity.
Qed.

Lemma get_deepseek_reply_posts
    (environ : gmap string string) (net : network) (user_message : value)
    (h : list event) :
  posts (snd (get_deepseek_reply environ net user_message h)) =
    if env_truthy (DEEPSEEK_API_KEY environ)
    then [Post (deepseek_request environ user_message)] else [].
Proof.
  rewrite get_deepseek_reply_run. cbv zeta.
  destruct (env_truthy _); [| reflexivity].
  destruct (net _ _) as [e | resp]; [reflexivity |].
  destruct (_ =? _); [| reflexivity].
  destruct (json resp) as [j | e]; [| reflexivity].
  destruct (first_choice_content j); reflexivity.
Qed.

Lemma posts_app (t1 t2 : list event) : posts (t1 ++ t2) = posts t1 ++ posts t2.
Proof. apply List.filter_app. Qed.

Lemma errors_app (t1 t2 : list event) : errors (t1 ++ t2) = errors t1 ++ errors t2.
Proof. apply List.filter_app. Qed.

(** The whole trace of [handle_message] on a text message. *)
Lemma handle_message_text_trace
    (environ : gmap string string) (net : network) (md td : gmap string value)
    (h : list event) :
  md !! "type" = Some (VStr "text") →
  default (VDict ∅) (md !! "text") = VDict td →
  let from_number := default VNone (md !! "from") in
  let user_text := default (VStr "") (td !! "body") in
  let received := Log INFO "Received message from {from_number}: {user_text}"
                    [LVal from_number; LVal user_text] in
  let run1 := get_deepseek_reply environ net user_text (h ++ [received]) in
  ∃ reply,
    fst run1 = Ok reply ∧
    let answered := Log INFO "AI response: {ai_response}" [LVal reply] in
    let run2 := send_whatsapp_message environ net from_number reply
                  (((h ++ [received]) ++ snd run1) ++ [answered]) in
    handle_message environ net (VDict md) h
      = (Ok tt, received :: snd run1 ++ answered :: snd run2).
Proof.
  intros Hty Htext. cbv zeta.
  set (from_number := default VNone (md !! "from")).
  set (user_text := default (VStr "") (td !! "body")).
  set (h1 := h ++ [_]).
  destruct (get_deepseek_reply_returns environ net user_text h1) as (reply & Hreply & _).
  destruct (get_deepseek_reply environ net user_text h1) as [r1 t1] eqn:Hrun1.
  cbn [fst snd] in *. subst r1.
  exists reply. split; [reflexivity |].
  set (h2 := (h1 ++ t1) ++ [Log INFO "AI response: {ai_response}" [LVal reply]]).
  destruct (send_whatsapp_message_returns environ net from_number reply h2) as (b & Hb).
  destruct (send_whatsapp_message environ net from_number reply h2) as [r2 t2] eqn:Hrun2.
  cbn [fst snd] in *. subst r2.
  unfold handle_message. cbn [py_get]. rewrite !bind_lift_Ok, Hty.
  cbn [default from_option id eq_str]. rewrite String.eqb_refl, bind_lift_Ok.
  rewrite Htext. cbn [py_get]. rewrite bind_lift_Ok.
  fold from_number user_text.
  unfold logger_info. rewrite bind_emit. fold h1.
  rewrite (bind_Ok _ _ _ _ _ Hrun1), bind_emit. fold h2.
  rewrite (bind_Ok _ _ _ _ _ Hrun2). cbn [ret].
  rewrite app_nil_r. reflexivity.
Qed.

(** A text message whose "text" is there but is not an object. *)
Lemma handle_message_text_not_object
    (environ : gmap string string) (net : network) (md : gmap string value)
    (v : value) (h : list event) :
  md !! "type" = Some (VStr "text") →
  md !! "text" = Some v →
  (∀ td, v ≠ VDict td) →
  handle_message environ net (VDict md) h = (Raise AttributeError, []).
Proof.
  intros Hty Htext Hv. unfold handle_message. cbn [py_get].
  rewrite !bind_lift_Ok, Hty. cbn [default from_option id eq_str].
  rewrite String.eqb_refl, bind_lift_Ok, Htext. cbn [default from_option id].
  destruct v; try reflexivity. exfalso. by eapply Hv.
Qed.

(** The three ways [handle_message] can go. *)
Lemma handle_message_cases
    (environ : gmap string string) (net : network) (m : value) (h : list event) :
  handle_message environ net m h = (Raise AttributeError, []) ∨
  (∃ ty, handle_message environ net m h
           = (Ok tt, [Log INFO "Received non-text message type: {message_type}"
                        [LVal ty]])) ∨
  (∃ md td, m = VDict md ∧ md !! "type" = Some (VStr "text") ∧
            default (VDict ∅) (md !! "text") = VDict td).
Proof.
  destruct m as [| | | | | | md];
    try (left; apply handle_message_not_dict; discriminate).
  destruct (eq_str (default VNone (md !! "type")) "text") eqn:Hty.
  - apply eq_str_true in Hty.
    assert (md !! "type" = Some (VStr "text")) as Hty'.
    { destruct (md !! "type"); cbn in Hty; congruence. }
    destruct (md !! "text") as [v |] eqn:Htext.
    + destruct v as [| | | | | | td];
        try (left; eapply handle_message_text_not_object; [done | done | discriminate]).
      right. right. exists md, td. rewrite Htext. auto.
    + right. right. exists md, ∅. rewrite Htext. auto.
  - right. left. eexists. apply handle_message_other_type.
    intros Hty'. rewrite Hty' in Hty. discriminate.
Qed.

(** [v[0]] on a value that passed [if v:] either raises a lookup error or
    gives the first element or character; an empty sequence never gets
    here, so there is no IndexError. *)
Lemma getitem_int_0_truthy (v : value) :
  truthy v = true →
  (∃ x rest, v = VList (x :: rest) ∧ getitem_int v 0 = Ok x) ∨
  (∃ c, getitem_int v 0 = Ok (VStr c)) ∨
  (∃ e, lookup_error e ∧ getitem_int v 0 = Raise e).
Proof.
  unfold lookup_error. intros Htr.
  destruct v as [| b | z | f | s | l | d]; try discriminate;
    try (right; right; eexists; split; [| reflexivity]; auto).
  - destruct s as [| c s]; [discriminate |]. right. left. eexists.
    rewrite getitem_int_0_str. reflexivity.
  - destruct l as [| x rest]; [discriminate |]. left. eauto.
Qed.

(** [v[0].get(k, dflt)] followed by [rest], for [v] that passed [if v:]. *)
Lemma bind_index_get {B} (v : value) (k : string) (dflt : value)
    (rest : value → M B) (h : list event) :
  truthy v = true →
  (∃ d tl, v = VList (VDict d :: tl) ∧
     bind (lift (getitem_int v 0)) (λ x, bind (lift (py_get x k dflt)) rest) h
       = rest (default dflt (d !! k)) h) ∨
  (∃ e, lookup_error e ∧
     bind (lift (getitem_int v 0)) (λ x, bind (lift (py_get x k dflt)) rest) h
       = (Raise e, [])).
Proof.
  intros Htr.
  destruct (getitem_int_0_truthy v Htr)
    as [(x & tl & -> & Hx) | [(c & Hc) | (e & He & Hraise)]].
  - rewrite Hx, bind_lift_Ok.
    destruct x as [| | | | | | d];
      try (right; exists AttributeError; split; [left; reflexivity | reflexivity]).
    left. exists d, tl. split; [reflexivity |]. cbn [py_get]. apply bind_lift_Ok.
  - right. exists AttributeError. split; [left; reflexivity |].
    rewrite Hc, bind_lift_Ok. reflexivity.
  - right. exists e. split; [exact He |]. rewrite Hraise. reflexivity.
Qed.

(** How the navigation of [process_webhook] can end: at the message, or
    quietly, or with a lookup error; in the last two cases no event is
    left. *)
Lemma process_webhook_outcomes
    (environ : gmap string string) (net : network) (data : value) (h : list event) :
  (∃ m, message_at data m ∧
        process_webhook environ net data h = handle_message environ net m h) ∨
  process_webhook environ net data h = (Ok tt, []) ∨
  (∃ e, lookup_error e ∧ process_webhook environ net data h = (Raise e, [])).
Proof.
  unfold process_webhook.
  destruct data as [| | | | | | d];
    try (right; right; exists AttributeError; split; [left; reflexivity | reflexivity]).
  cbn [py_get]. rewrite bind_lift_Ok.
  destruct (truthy (default (VList []) (d !! "entry"))) eqn:Hentry;
    [| right; left; reflexivity].
  destruct (bind_index_get (default (VList []) (d !! "entry")) "changes" (VList [])
              (λ changes,
                 if truthy changes then
                   changes0 <- lift (getitem_int changes 0) ;;
                   value <- lift (py_get changes0 "value" (VDict ∅)) ;;
                   messages <- lift (py_get value "messages" (VList [])) ;;
                   if truthy messages then
                     message <- lift (getitem_int messages 0) ;;
                     handle_message environ net message
                   else ret tt
                 else ret tt) h Hentry)
    as [(e & er & He & ->) | (ex & Hex & ->)]; [| right; right; eauto].
  destruct (truthy (default (VList []) (e !! "changes"))) eqn:Hchanges;
    [| right; left; reflexivity].
  destruct (bind_index_get (default (VList []) (e !! "changes")) "value" (VDict ∅)
              (λ value,
                 messages <- lift (py_get value "messages" (VList [])) ;;
                 if truthy messages then
                   message <- lift (getitem_int messages 0) ;;
                   handle_message environ net message
                 else ret tt) h Hchanges)
    as [(c & cr & Hc & ->) | (ex & Hex & ->)]; [| right; right; eauto].
  destruct (default (VDict ∅) (c !! "value")) as [| | | | | | v] eqn:Hvalue;
    try (right; right; exists AttributeError; split; [left; reflexivity | reflexivity]).
  cbn [py_get]. rewrite bind_lift_Ok.
  destruct (truthy (default (VList []) (v !! "messages"))) eqn:Hmessages;
    [| right; left; reflexivity].
  destruct (getitem_int_0_truthy _ Hmessages)
    as [(m & mr & Hm & ->) | [(ch & ->) | (ex & Hex & ->)]].
  - left. exists m. split; [| apply bind_lift_Ok].
    exists d, e, c, v, er, cr, mr. split; [reflexivity |].
    destruct (d !! "entry") as [x |]; [| discriminate]. cbn in He. subst x.
    destruct (e !! "changes") as [x |]; [| discriminate]. cbn in Hc. subst x.
    destruct (c !! "value") as [x |] eqn:Hcv.
    + cbn in Hvalue. subst x.
      destruct (v !! "messages") as [x |]; [| discriminate]. cbn in Hm. subst x. auto.
    + cbn in Hvalue. injection Hvalue as <-. rewrite lookup_empty in Hm. discriminate.
  - right. right. exists AttributeError. split; [left; reflexivity |].
    rewrite bind_lift_Ok. reflexivity.
  - right. right. exists ex. split; [exact Hex | reflexivity].
Qed.

Lemma posts_log (lvl : level) (template : string) (args : list logarg) (t : list event) :
  posts (Log lvl template args :: t) = posts t.
Proof. reflexivity. Qed.

Lemma calls_log (lvl : level) (template : string) (args : list logarg) (t : list event) :
  calls (Log lvl template args :: t) = calls t.
Proof. reflexivity. Qed.

(** The whole trace of the POST branch on a delivery with a text message. *)
Lemma webhook_post_text_trace
    (environ : gmap string string) (net : network) (qs : gmap string string)
    (data : value) (md td : gmap string value) (h : list event) :
  message_at data (VDict md) →
  md !! "type" = Some (VStr "text") →
  default (VDict ∅) (md !! "text") = VDict td →
  let from_number := default VNone (md !! "from") in
  let user_text := default (VStr "") (td !! "body") in
  let delivered := Log INFO "Received webhook data: {data}" [LVal data] in
  let received := Log INFO "Received message from {from_number}: {user_text}"
                    [LVal from_number; LVal user_text] in
  let run1 := get_deepseek_reply environ net user_text (h ++ [delivered; received]) in
  ∃ reply,
    fst run1 = Ok reply ∧
    let answered := Log INFO "AI response: {ai_response}" [LVal reply] in
    let run2 := send_whatsapp_message environ net from_number reply
                  (h ++ [delivered; received] ++ snd run1 ++ [answered]) in
    webhook environ net (mkRequest "POST" qs (Ok data)) h
      = (Ok (Some (VStr "OK", 200)),
         delivered :: received :: snd run1 ++ answered :: snd run2).
Proof.
  intros Hat Hty Htext. cbv zeta. rewrite webhook_post_run. cbv zeta.
  set (h0 := h ++ [_]).
  destruct (process_webhook_cases environ net data h0) as [(m & Hat' & ->) | [Hnone _]].
  2:{ exfalso. exact (Hnone _ Hat). }
  rewrite <- (message_at_unique _ _ _ Hat Hat').
  destruct (handle_message_text_trace environ net md td h0 Hty Htext)
    as (reply & Hreply & ->).
  unfold h0 in *. clear h0.
  replace ((h ++ [Log INFO "Received webhook data: {data}" [LVal data]]) ++
           [Log INFO "Received message from {from_number}: {user_text}"
              [LVal (default VNone (md !! "from"));
               LVal (default (VStr "") (td !! "body"))]])
    with (h ++ [Log INFO "Received webhook data: {data}" [LVal data];
                Log INFO "Received message from {from_number}: {user_text}"
                  [LVal (default VNone (md !! "from"));
                   LVal (default (VStr "") (td !! "body"))]]) in *
    by (rewrite <- app_assoc; reflexivity).
  exists reply. split; [exact Hreply |].
  cbn [fst snd]. rewrite app_nil_r, <- !app_assoc. reflexivity.
Qed.

(** ** The relay end to end *)

(** X1: for a delivery with a text message the POST branch makes, in
    this order, one POST to the completion endpoint carrying the body of
    the message (when the API key is configured) and one POST to the send
    endpoint carrying the sender of the message as recipient and the value
    the Completion Client returned as body (when both WhatsApp credentials
    are configured), and no other POST. *)
Theorem webhook_post_text_posts
    (environ : gmap string string) (net : network) (qs : gmap string string)
    (data : value) (md td : gmap string value) (h : list event) :
  message_at data (VDict md) →
  md !! "type" = Some (VStr "text") →
  default (VDict ∅) (md !! "text") = VDict td →
  let from_number := default VNone (md !! "from") in
  let user_text := default (VStr "") (td !! "body") in
  let h1 := h ++ [Log INFO "Received webhook data: {data}" [LVal data];
                  Log INFO "Received message from {from_number}: {user_text}"
                    [LVal from_number; LVal user_text]] in
  ∃ reply,
    fst (get_deepseek_reply environ net user_text h1) = Ok reply ∧
    posts (snd (webhook environ net (mkRequest "POST" qs (Ok data)) h)) =
      (if env_truthy (DEEPSEEK_API_KEY environ)
       then [Post (deepseek_request environ user_text)] else []) ++
      (if env_truthy (WHATSAPP_TOKEN environ) && env_truthy (WHATSAPP_PHONE_ID environ)
       then [Post (send_request environ from_number reply)] else []).
Proof.
  intros Hat Hty Htext. cbv zeta.
  destruct (webhook_post_text_trace environ net qs data md td h Hat Hty Htext)
    as (reply & Hreply & Hrun).
  exists reply. split; [exact Hreply |].
  cbv zeta in Hrun. rewrite Hrun. cbn [snd].
  rewrite !posts_log, posts_app, posts_log.
  rewrite get_deepseek_reply_posts, send_whatsapp_message_posts. reflexivity.
Qed.

(** X4: a message of type "text" whose "text" is present but is not an
    object (for instance null) stops the POST branch with an
    AttributeError, which is logged; nothing is sent and the answer is
    ("OK", 200). *)
Theorem webhook_post_text_not_object
    (environ : gmap string string) (net : network) (qs : gmap string string)
    (data : value) (md : gmap string value) (v : value) (h : list event) :
  message_at data (VDict md) →
  md !! "type" = Some (VStr "text") →
  md !! "text" = Some v →
  (∀ td, v ≠ VDict td) →
  webhook environ net (mkRequest "POST" qs (Ok data)) h
    = (Ok (Some (VStr "OK", 200)),
       [Log INFO "Received webhook data: {data}" [LVal data];
        Log ERROR "Error processing webhook: {e}" [LExn AttributeError]]).
Proof.
  intros Hat Hty Htext Hv. rewrite webhook_post_run. cbv zeta.
  set (h0 := h ++ [_]).
  destruct (process_webhook_cases environ net data h0) as [(m & Hat' & ->) | [Hnone _]].
  2:{ exfalso. exact (Hnone _ Hat). }
  rewrite <- (message_at_unique _ _ _ Hat Hat').
  rewrite (handle_message_text_not_object environ net md v h0 Hty Htext Hv).
  reflexivity.
Qed.

(** X5: with DEEPSEEK_API_KEY unset or empty and both WhatsApp
    credentials configured, a text message causes exactly one POST: to the
    send endpoint, with the sender of the message as recipient and the
    string "DeepSeek API key not configured!" as body; nothing is POSTed
    to the completion endpoint. *)
Theorem webhook_post_text_without_key
    (environ : gmap string string) (net : network) (qs : gmap string string)
    (data : value) (md td : gmap string value) (h : list event) :
  message_at data (VDict md) →
  md !! "type" = Some (VStr "text") →
  default (VDict ∅) (md !! "text") = VDict td →
  env_truthy (DEEPSEEK_API_KEY environ) = false →
  env_truthy (WHATSAPP_TOKEN environ) = true →
  env_truthy (WHATSAPP_PHONE_ID environ) = true →
  let run := webhook environ net (mkRequest "POST" qs (Ok data)) h in
  let from_number := default VNone (md !! "from") in
  let notice := VStr "DeepSeek API key not configured!" in
  posts (snd run) = [Post (send_request environ from_number notice)] ∧
  calls (snd run)
    = [CallReply (default (VStr "") (td !! "body")); CallSend from_number notice].
Proof.
  intros Hat Hty Htext Hkey Htoken Hphone. cbv zeta.
  destruct (webhook_post_text_message environ net qs data md td h Hat Hty Htext)
    as (reply' & Hreply' & Hcalls).
  rewrite get_deepseek_reply_run, Hkey in Hreply'. cbn [fst] in Hreply'.
  injection Hreply' as <-. split; [| exact Hcalls].
  destruct (webhook_post_text_trace environ net qs data md td h Hat Hty Htext)
    as (reply & Hreply & Hrun).
  cbv zeta in Hrun. rewrite Hrun. cbn [snd].
  rewrite get_deepseek_reply_run, Hkey in Hreply. cbn [fst] in Hreply.
  injection Hreply as <-.
  rewrite !posts_log, posts_app, posts_log.
  rewrite get_deepseek_reply_posts, send_whatsapp_message_posts.
  rewrite Hkey, Htoken, Hphone. reflexivity.
Qed.

(** X3: when the body of the [try] raises, it has left no event (nothing
    was logged, sent or asked of the completion endpoint), and the
    exception is an AttributeError, a KeyError or a TypeError of the
    navigation; the [if entry:], [if changes:] and [if messages:] tests
    exclude an IndexError, and the clients keep their own exceptions. *)
Theorem process_webhook_raise
    (environ : gmap string string) (net : network) (data : value) (h : list event)
    (e : exn) :
  fst (process_webhook environ net data h) = Raise e →
  snd (process_webhook environ net data h) = [] ∧
  (e = AttributeError ∨ e = KeyError ∨ e = TypeError).
Proof.
  intros Hraise.
  destruct (process_webhook_outcomes environ net data h)
    as [(m & _ & Hrun) | [Hrun | (e' & He' & Hrun)]]; rewrite Hrun in *.
  - destruct (handle_message_cases environ net m h)
      as [Hm | [(ty & Hm) | (md & td & -> & Hty & Htext)]].
    + rewrite Hm in *. injection Hraise as <-. auto.
    + rewrite Hm in Hraise. discriminate.
    + destruct (handle_message_text_trace environ net md td h Hty Htext)
        as (reply & _ & Hm).
      cbv zeta in Hm. rewrite Hm in Hraise. discriminate.
  - discriminate.
  - injection Hraise as <-. auto.
Qed.

(** X10: the only exception that leaves the view is the one of
    request.get_json() in the POST branch, and then the view has left no
    event. *)
Theorem webhook_raise
    (environ : gmap string string) (net : network) (request : Request)
    (h : list event) (e : exn) :
  fst (webhook environ net request h) = Raise e →
  method request = "POST" ∧ get_json request = Raise e ∧
  snd (webhook environ net request h) = [].
Proof.
  destruct request as [meth qs body]. unfold webhook. cbn [method get_json args].
  destruct (String.eqb meth "GET") eqn:Hget.
  { unfold logger_info, logger_error, bind, emit, ret.
    destruct (_ && _); discriminate. }
  destruct (String.eqb meth "POST") eqn:Hpost; [| discriminate].
  apply String.eqb_eq in Hpost. subst meth.
  destruct body as [data | e'].
  - pose proof (webhook_post_run environ net qs data h) as Hrun. cbv zeta in Hrun.
    unfold webhook in Hrun. cbn [method get_json String.eqb Ascii.eqb Bool.eqb] in Hrun.
    rewrite Hrun. discriminate.
  - rewrite bind_lift_Raise. intros [= <-]. auto.
Qed.

(** X2: whatever the request, the view makes at most two POSTs (there is
    no retry), and for a method other than POST it makes none and enters
    neither client. *)
Theorem webhook_posts_bound
    (environ : gmap string string) (net : network) (request : Request)
    (h : list event) :
  (length (posts (snd (webhook environ net request h))) ≤ 2)%nat ∧
  (method request ≠ "POST" →
   posts (snd (webhook environ net request h)) = [] ∧
   calls (snd (webhook environ net request h)) = []).
Proof.
  destruct request as [meth qs body]. cbn [method].
  destruct (String.eqb meth "GET") eqn:Hget.
  { unfold webhook. cbn [method get_json args]. rewrite Hget.
    unfold logger_info, logger_error, bind, emit, ret.
    destruct (_ && _); cbn; split; auto with lia. }
  destruct (String.eqb meth "POST") eqn:Hpost.
  2:{ unfold webhook. cbn [method get_json args]. rewrite Hget, Hpost. cbn.
      split; auto with lia. }
  apply String.eqb_eq in Hpost. subst meth. split; [| congruence].
  destruct body as [data | e].
  2:{ unfold webhook. cbn [method get_json String.eqb Ascii.eqb Bool.eqb].
      rewrite bind_lift_Raise. cbn. lia. }
  rewrite webhook_post_run. cbv zeta. cbn [snd]. rewrite posts_log, posts_app.
  set (h0 := h ++ [_]).
  assert (posts match fst (process_webhook environ net data h0) with
                | Ok _ => []
                | Raise e => [Log ERROR "Error processing webhook: {e}" [LExn e]]
                end = []) as -> by (destruct (fst _); reflexivity).
  rewrite app_nil_r.
  destruct (process_webhook_outcomes environ net data h0)
    as [(m & _ & ->) | [-> | (e & _ & ->)]]; [| cbn; lia | cbn; lia].
  destruct (handle_message_cases environ net m h0)
    as [-> | [(ty & ->) | (md & td & -> & Hty & Htext)]]; [cbn; lia | cbn; lia |].
  destruct (handle_message_text_trace environ net md td h0 Hty Htext)
    as (reply & _ & ->).
  cbn [snd]. rewrite posts_log, posts_app, posts_log.
  rewrite get_deepseek_reply_posts, send_whatsapp_message_posts.
  destruct (env_truthy _), (_ && _); cbn; lia.
Qed.

(** ** Logging of the two clients *)

(** X6: [send_whatsapp_message] logs exactly one ERROR record when it
    returns [False] (credentials missing, status other than 200, or an
    exception of the POST) and none when it returns [True]. *)
Theorem send_whatsapp_message_logs
    (environ : gmap string string) (net : network) (to message : value)
    (h : list event) :
  ∃ b, fst (send_whatsapp_message environ net to message h) = Ok b ∧
       length (errors (snd (send_whatsapp_message environ net to message h)))
         = (if b then 0 else 1)%nat.
Proof.
  rewrite send_whatsapp_message_run. cbv zeta.
  destruct (_ && _); [| exists false; split; reflexivity].
  destruct (net _ _) as [e | resp]; [exists false; split; reflexivity |].
  destruct (_ =? _); [exists true | exists false]; split; reflexivity.
Qed.

(** X7: [get_deepseek_reply] logs at most one ERROR record, and it logs
    none exactly when the API key is not configured (that fallback is
    silent) or a 200 answer carries choices[0].message.content. *)
Theorem get_deepseek_reply_logs
    (environ : gmap string string) (net : network) (user_message : value)
    (h : list event) :
  let answer :=
    net (h ++ [CallReply user_message]) (deepseek_request environ user_message) in
  let t := snd (get_deepseek_reply environ net user_message h) in
  (length (errors t) ≤ 1)%nat ∧
  (errors t = [] ↔
   env_truthy (DEEPSEEK_API_KEY environ) = false ∨
   ∃ resp j c, answer = inr resp ∧ status_code resp = 200 ∧ json resp = Ok j ∧
               content_at j c).
Proof.
  cbv zeta. rewrite get_deepseek_reply_run. cbv zeta.
  destruct (env_truthy _); [| split; [cbn; lia | split; auto]].
  destruct (net _ _) as [e | resp].
  { split; [cbn; lia |]. split; [discriminate |].
    intros [[=] | (resp & j & c & [=] & _)]. }
  destruct (status_code resp =? 200) eqn:Hst.
  - apply Z.eqb_eq in Hst. destruct (json resp) as [j | e] eqn:Hj.
    + destruct (first_choice_content j) as [c | e] eqn:Hc.
      * apply first_choice_content_Ok in Hc. split; [cbn; lia |].
        split; [| reflexivity]. intros _. right. exists resp, j, c. auto.
      * split; [cbn; lia |]. split; [discriminate |].
        intros [[=] | (resp' & j' & c & [= <-] & _ & Hj' & Hc')].
        rewrite Hj in Hj'. injection Hj' as <-.
        apply first_choice_content_Ok in Hc'. congruence.
    + split; [cbn; lia |]. split; [discriminate |].
      intros [[=] | (resp' & j' & c & [= <-] & _ & Hj' & _)]. congruence.
  - apply Z.eqb_neq in Hst. split; [cbn; lia |]. split; [discriminate |].
    intros [[=] | (resp' & j' & c & [= <-] & H200 & _)]. contradiction.
Qed.

(** ** Start-up *)

(** X8: [check_configuration] succeeds exactly when the guards of both
    clients pass, that is, when [send_whatsapp_message] and
    [get_deepseek_reply] make their POST on every call. *)
Theorem check_configuration_guards
    (environ : gmap string string) (h : list event) :
  fst (check_configuration environ h) = Ok true ↔
  ∀ (net : network) (to message user_message : value) (h' : list event),
    posts (snd (send_whatsapp_message environ net to message h'))
      = [Post (send_request environ to message)] ∧
    posts (snd (get_deepseek_reply environ net user_message h'))
      = [Post (deepseek_request environ user_message)].
Proof.
  unfold check_configuration, missing_vars.
  split.
  - intros Hok net to message user_message h'.
    rewrite send_whatsapp_message_posts, get_deepseek_reply_posts.
    destruct (env_truthy (WHATSAPP_TOKEN environ)),
             (env_truthy (WHATSAPP_PHONE_ID environ)),
             (env_truthy (DEEPSEEK_API_KEY environ)); try discriminate.
    split; reflexivity.
  - intros Hposts.
    destruct (Hposts (λ _ _, inl KeyError) VNone VNone VNone []) as [Hsend Hreply].
    rewrite send_whatsapp_message_posts in Hsend.
    rewrite get_deepseek_reply_posts in Hreply.
    destruct (env_truthy (WHATSAPP_TOKEN environ)),
             (env_truthy (WHATSAPP_PHONE_ID environ)),
             (env_truthy (DEEPSEEK_API_KEY environ)); try discriminate.
    reflexivity.
Qed.

(** X9: the start-up script reaches [app.run] on 0.0.0.0:5000 exactly
    when WHATSAPP_TOKEN, WHATSAPP_PHONE_ID and DEEPSEEK_API_KEY are all set
    to non-empty values; otherwise it ends in exit(1). *)
Theorem main_serves_iff_configured (environ : gmap string string) :
  snd (main environ) =
    if forallb (λ name, env_truthy (environ !! name))
         ["WHATSAPP_TOKEN"; "WHATSAPP_PHONE_ID"; "DEEPSEEK_API_KEY"]
    then Serving "0.0.0.0" 5000 true
    else Exited 1.
Proof.
  unfold main, check_configuration, missing_vars,
    WHATSAPP_TOKEN, WHATSAPP_PHONE_ID, DEEPSEEK_API_KEY.
  cbn [forallb].
  destruct (env_truthy (environ !! "WHATSAPP_TOKEN")),
           (env_truthy (environ !! "WHATSAPP_PHONE_ID")),
           (env_truthy (environ !! "DEEPSEEK_API_KEY")); reflexivity.
Qed.

(** ** The further theorems at concrete inputs *)

Import MoreExamples.

Lemma webhook_post_text_posts_witness :
  message_at (delivery hello) hello ∧
  ∃ reply,
    posts (snd (webhook env_full (net_reply (VStr "Hi!"))
                  (post_request (Ok (delivery hello))) []))
      = [Post (deepseek_request env_full (VStr "Hello"));
         Post (send_request env_full (VStr "1555000111") reply)].
Proof.
  split; [apply delivery_message |].
  destruct (webhook_post_text_posts env_full (net_reply (VStr "Hi!")) ∅ (delivery hello)
              {[ "from" := VStr "1555000111"; "type" := VStr "text";
                 "text" := VDict {[ "body" := VStr "Hello" ]} ]}
              {[ "body" := VStr "Hello" ]} [])
    as (reply & _ & Hposts); try reflexivity.
  - apply delivery_message.
  - exists reply. exact Hposts.
Defined.

Lemma webhook_posts_bound_witness :
  method (get_request (verify_query "deepseek-bot")) ≠ "POST" ∧
  posts (snd (webhook env_full net_down (get_request (verify_query "deepseek-bot")) []))
    = [] ∧
  calls (snd (webhook env_full net_down (get_request (verify_query "deepseek-bot")) []))
    = [].
Proof.
  split; [discriminate |].
  destruct (webhook_posts_bound env_full net_down
              (get_request (verify_query "deepseek-bot")) []) as [_ Hget].
  apply Hget. discriminate.
Defined.

Lemma process_webhook_raise_witness :
  fst (process_webhook env_full net_down VNone []) = Raise AttributeError ∧
  snd (process_webhook env_full net_down VNone []) = [].
Proof.
  split; [reflexivity |].
  apply (process_webhook_raise env_full net_down VNone [] AttributeError). reflexivity.
Defined.

Lemma webhook_post_text_not_object_witness :
  message_at (delivery text_null) text_null ∧
  webhook env_full net_down (post_request (Ok (delivery text_null))) []
    = (Ok (Some (VStr "OK", 200)),
       [Log INFO "Received webhook data: {data}" [LVal (delivery text_null)];
        Log ERROR "Error processing webhook: {e}" [LExn AttributeError]]).
Proof.
  split; [apply delivery_message |].
  apply (webhook_post_text_not_object env_full net_down ∅ (delivery text_null)
           {[ "from" := VStr "1555000111"; "type" := VStr "text"; "text" := VNone ]}
           VNone []).
  - apply delivery_message.
  - reflexivity.
  - reflexivity.
  - discriminate.
Defined.

Lemma webhook_post_text_without_key_witness :
  env_truthy (DEEPSEEK_API_KEY env_without_key) = false ∧
  env_truthy (WHATSAPP_TOKEN env_without_key) = true ∧
  env_truthy (WHATSAPP_PHONE_ID env_without_key) = true ∧
  posts (snd (webhook env_without_key net_down (post_request (Ok (delivery hello))) []))
    = [Post (send_request env_without_key (VStr "1555000111")
               (VStr "DeepSeek API key not configured!"))] ∧
  calls (snd (webhook env_without_key net_down (post_request (Ok (delivery hello))) []))
    = [CallReply (VStr "Hello");
       CallSend (VStr "1555000111") (VStr "DeepSeek API key not configured!")].
Proof.
  split; [reflexivity |]. split; [reflexivity |]. split; [reflexivity |].
  exact (webhook_post_text_without_key env_without_key net_down ∅ (delivery hello)
           {[ "from" := VStr "1555000111"; "type" := VStr "text";
              "text" := VDict {[ "body" := VStr "Hello" ]} ]}
           {[ "body" := VStr "Hello" ]} []
           (delivery_message hello) eq_refl eq_refl eq_refl eq_refl eq_refl).
Defined.

Lemma webhook_raise_witness :
  fst (webhook env_full net_down (post_request (Raise BadRequest)) []) = Raise BadRequest ∧
  snd (webhook env_full net_down (post_request (Raise BadRequest)) []) = [].
Proof.
  split; [reflexivity |].
  apply (webhook_raise env_full net_down (post_request (Raise BadRequest)) [] BadRequest).
  reflexivity.
Defined.

Lemma get_deepseek_reply_logs_witness :
  errors (snd (get_deepseek_reply env_full (net_reply (VStr "Hi!")) (VStr "Hello") []))
    = [].
Proof.
  destruct (get_deepseek_reply_logs env_full (net_reply (VStr "Hi!")) (VStr "Hello") [])
    as [_ Hiff].
  apply Hiff. right.
  exists (ok_response (completion (VStr "Hi!"))), (completion (VStr "Hi!")), (VStr "Hi!").
  split; [reflexivity |]. split; [reflexivity |]. split; [reflexivity |].
  unfold content_at, completion. do 3 eexists. exists []. repeat split; reflexivity.
Defined.

Lemma check_configuration_guards_witness :
  fst (check_configuration env_full []) = Ok true ∧
  posts (snd (send_whatsapp_message env_full net_down (VStr "1555000111") (VStr "Hi!") []))
    = [Post (send_request env_full (VStr "1555000111") (VStr "Hi!"))] ∧
  posts (snd (get_deepseek_reply env_full net_down (VStr "Hello") []))
    = [Post (deepseek_request env_full (VStr "Hello"))].
Proof.
  split; [reflexivity |].
  destruct (check_configuration_guards env_full []) as [Hguards _].
  apply (Hguards eq_refl net_down (VStr "1555000111") (VStr "Hi!") (VStr "Hello") []).
Defined.
